(** * ParaBank page objects: account reconciliation, transfer planning,
      bill payment and demo credentials

    A shallow embedding of the decision logic of
    [src/pages/new_account_page.py] and
    [src/constants/application_constants.py].

    Conventions of the embedding.
    - A Python [str] is a [string] whose characters are the code points
      U+0000 to U+00FF; the non-breaking space ['\xa0'] is the single
      character of code 160.
    - A Python [float] is an IEEE 754 binary64 value, [spec_float] with
      precision 53 and maximal exponent 1024, rounded to nearest even.
    - A call that may raise returns a [result]: [Returned v] or
      [Raised e].
    - The browser is an environment that answers requests; the requests a
      method performs are recorded in order.
    - Calls of [print] are left out: they change no result. *)

From Stdlib Require Import ZArith NArith Ascii String SpecFloat.
From stdpp Require Import base option list strings gmap.

(** ** Exceptions and results *)

Inductive exn :=
  | ValueError
  | AssertionError
  | AttributeError
  | OSError
  | IndexError
  | KeyError
  | TypeError
  | JSONDecodeError
  | PlaywrightError
  | Exception (msg : string).

Inductive result (A : Type) :=
  | Returned (a : A)
  | Raised (e : exn).
Arguments Returned {A} a.
Arguments Raised {A} e.

#[global] Instance exn_eq_dec : EqDecision exn.
Proof. solve_decision. Defined.

#[global] Instance result_ret : MRet result := fun _ a => Returned a.
#[global] Instance result_bind : MBind result := fun _ _ f m =>
  match m with
  | Returned a => f a
  | Raised e => Raised e
  end.
#[global] Instance result_fmap : FMap result := fun _ _ f m =>
  match m with
  | Returned a => Returned (f a)
  | Raised e => Raised e
  end.

(** [float(...)] and friends signal failure with [ValueError]. *)
Definition or_raise {A} (e : exn) (o : option A) : result A :=
  match o with
  | Some a => Returned a
  | None => Raised e
  end.

(** ** The [str] methods the code uses *)

Module PyStr.

Definition NBSP : string := String "160"%char "".

Definition code (c : ascii) : N := N_of_ascii c.

Definition is_ascii_digit (c : ascii) : bool :=
  ((48 <=? code c) && (code c <=? 57))%N.

(** [str.isdigit] accepts the characters of numeric type Decimal or
    Digit: below U+0100 these are [0-9] and the superscripts
    U+00B2, U+00B3 and U+00B9. *)
Definition char_isdigit (c : ascii) : bool :=
  is_ascii_digit c
  || (code c =? 178)%N || (code c =? 179)%N || (code c =? 185)%N.

Fixpoint all_chars (p : ascii -> bool) (s : string) : bool :=
  match s with
  | EmptyString => true
  | String c s' => p c && all_chars p s'
  end.

(** [s.isdigit()]: at least one character, and all of them digits. *)
Definition isdigit (s : string) : bool :=
  match s with
  | EmptyString => false
  | _ => all_chars char_isdigit s
  end.

(** [s.replace(old, new)] for a one-character [old]. *)
Fixpoint replace (old : ascii) (new : string) (s : string) : string :=
  match s with
  | EmptyString => EmptyString
  | String c s' =>
      if Ascii.eqb c old then new +:+ replace old new s'
      else String c (replace old new s')
  end.

Fixpoint starts_with (p s : string) : bool :=
  match p, s with
  | EmptyString, _ => true
  | String a p', String b s' => Ascii.eqb a b && starts_with p' s'
  | String _ _, EmptyString => false
  end.

Fixpoint drop (n : nat) (s : string) : string :=
  match n, s with
  | S n', String _ s' => drop n' s'
  | _, _ => s
  end.

(** [sub in s] *)
Fixpoint contains (sub s : string) : bool :=
  starts_with sub s
  || match s with
     | EmptyString => false
     | String _ s' => contains sub s'
     end.

(** [s.partition(sep)] when [sep] occurs: the text before the first
    occurrence and the text after it. *)
Fixpoint partition (sep s : string) : option (string * string) :=
  if starts_with sep s then Some (EmptyString, drop (String.length sep) s)
  else match s with
       | EmptyString => None
       | String c s' =>
           match partition sep s' with
           | Some (a, b) => Some (String c a, b)
           | None => None
           end
       end.

(** [s.split(sep)] for a non-empty [sep]: cut at the occurrences of
    [sep], found from left to right without overlap.  Every cut
    shortens the text, so [fuel] bounded by the length is never
    exhausted. *)
Fixpoint split_from (fuel : nat) (sep s : string) : list string :=
  match partition sep s with
  | None => [s]
  | Some (a, b) =>
      a :: match fuel with
           | O => [b]
           | S fuel' => split_from fuel' sep b
           end
  end.

Definition split (sep s : string) : list string :=
  split_from (String.length s) sep s.

End PyStr.

(** ** [float]: binary64 arithmetic and [float(str)] *)

Module PyFloat.
Import PyStr.

Definition float := spec_float.
Definition prec : Z := 53.
Definition emax : Z := 1024.

Definition add : float -> float -> float := SFadd prec emax.
Definition sub : float -> float -> float := SFsub prec emax.
Definition abs : float -> float := SFabs.
Definition ltb : float -> float -> bool := SFltb.

Definition zero : float := S754_zero false.

(** The binary64 value nearest to [(-1)^neg * n / d], ties to even,
    for [0 <= n] and [0 < d]. *)
Definition of_ratio (neg : bool) (n d : Z) : float :=
  match n with
  | Z0 => S754_zero neg
  | _ =>
      let '(m, e, l) := SFdiv_core_binary prec emax n 0 d 0 in
      binary_round_aux prec emax neg m e l
  end.

(** The value of the decimal literal [(-1)^neg * m * 10^e10]. *)
Definition of_decimal (neg : bool) (m e10 : Z) : float :=
  if (0 <=? e10)%Z then of_ratio neg (m * 10 ^ e10) 1
  else of_ratio neg m (10 ^ (- e10)).

(** The literal [0.01] of the tolerance test. *)
Definition tolerance : float := of_decimal false 1 (-2).

(** [sum(xs)] from the initial [0], left to right.  CPython 3.12 and
    later carry a compensation term besides; it is zero wherever a sum
    is evaluated below, and the general statements hold of any
    function of the list. *)
Definition sum (xs : list float) : float := fold_left add xs zero.

(** *** Parsing, after CPython's [PyFloat_FromString] *)

(** Non-ASCII white space becomes a blank. *)
Definition to_ascii_space (c : ascii) : ascii :=
  if ((code c =? 133) || (code c =? 160))%N then " "%char else c.

(** Blank, [\t], [\n], [\v], [\f], [\r]. *)
Definition is_space (c : ascii) : bool :=
  ((code c =? 32) || ((9 <=? code c) && (code c <=? 13)))%N.

Definition is_underscore (c : ascii) : bool := (code c =? 95)%N.

(** An underscore is accepted only between two digits, and dropped. *)
Fixpoint drop_underscores (prev : ascii) (cs : list ascii)
  : option (list ascii) :=
  match cs with
  | [] => if is_underscore prev then None else Some []
  | c :: cs' =>
      if is_underscore c then
        if is_ascii_digit prev then drop_underscores c cs' else None
      else if is_underscore prev && negb (is_ascii_digit c) then None
      else (c ::.) <$> drop_underscores c cs'
  end.

Fixpoint lstrip (cs : list ascii) : list ascii :=
  match cs with
  | c :: cs' => if is_space c then lstrip cs' else cs
  | [] => []
  end.

Definition strip (cs : list ascii) : list ascii :=
  reverse (lstrip (reverse (lstrip cs))).

Fixpoint span_digits (cs : list ascii) : list ascii * list ascii :=
  match cs with
  | c :: cs' =>
      if is_ascii_digit c then
        let '(ds, rest) := span_digits cs' in (c :: ds, rest)
      else ([], cs)
  | [] => ([], [])
  end.

Definition digits_value (ds : list ascii) : Z :=
  fold_left (fun acc d => 10 * acc + (Z.of_N (code d) - 48))%Z ds 0%Z.

Definition lower (c : ascii) : ascii :=
  if ((65 <=? code c) && (code c <=? 90))%N
  then ascii_of_N (code c + 32) else c.

Definition take_sign (cs : list ascii) : bool * list ascii :=
  match cs with
  | "-"%char :: cs' => (true, cs')
  | "+"%char :: cs' => (false, cs')
  | _ => (false, cs)
  end.

(** The exponent part: absent, or [e]/[E], an optional sign and at
    least one digit, up to the end of the text. *)
Definition parse_exponent (cs : list ascii) : option Z :=
  match cs with
  | [] => Some 0%Z
  | c :: cs' =>
      if Ascii.eqb (lower c) "e" then
        let '(neg, r) := take_sign cs' in
        let '(ds, rest) := span_digits r in
        match ds, rest with
        | _ :: _, [] =>
            Some (if neg then (- digits_value ds)%Z else digits_value ds)
        | _, _ => None
        end
      else None
  end.

(** Digits with an optional point, at least one digit in all, then the
    exponent part: the mantissa and the power of ten. *)
Definition parse_decimal (cs : list ascii) : option (Z * Z) :=
  let '(ip, r1) := span_digits cs in
  let '(fp, r2) :=
    match r1 with
    | "."%char :: r => span_digits r
    | _ => ([], r1)
    end in
  match ip ++ fp with
  | [] => None
  | ds =>
      e ← parse_exponent r2;
      Some (digits_value ds, (e - Z.of_nat (length fp))%Z)
  end.

Definition parse_special (neg : bool) (cs : list ascii) : option float :=
  let w := string_of_list_ascii (map lower cs) in
  if String.eqb w "inf" || String.eqb w "infinity"
  then Some (S754_infinity neg)
  else if String.eqb w "nan" then Some S754_nan
  else None.

(** [float(s)]: [None] stands for [ValueError]. *)
Definition parse (s : string) : option float :=
  cs ← drop_underscores "000"%char (map to_ascii_space (list_ascii_of_string s));
  let '(neg, body) := take_sign (strip cs) in
  match parse_decimal body with
  | Some (m, e10) => Some (of_decimal neg m e10)
  | None => parse_special neg body
  end.

End PyFloat.

(** ** [NewAccountPage]: what the methods compute from the fetched data *)

Module NewAccountPage.
Import PyStr.

(** A table snapshot: one list of cell texts per row
    ([all_td_values]). *)
Abbreviation table := (list (list string)).

(** [value.replace('$', '').replace(',', '')] *)
Definition strip_currency (value : string) : string :=
  replace "," "" (replace "$" "" value).

(** [[item[0] for item in all_td_values
      if item and item[0] and item[0].isdigit()]] *)
Definition account_ids (all_td_values : table) : list string :=
  item ← all_td_values;
  match item with
  | c0 :: _ =>
      if negb (String.eqb c0 "") && isdigit c0 then [c0] else []
  | [] => []
  end.

(** [[item[1] for item in all_td_values
      if len(item) > 1 and item[1] not in ['Total', '\xa0']]] *)
Definition middle_values (all_td_values : table) : list string :=
  item ← all_td_values;
  match item with
  | _ :: c1 :: _ =>
      if bool_decide (c1 ∈ ["Total"; NBSP]) then [] else [c1]
  | _ => []
  end.

(** The filter of the [numeric_values] comprehension:
    [value.replace('$', '').replace(',', '').replace('.', '').isdigit()] *)
Definition looks_numeric (value : string) : bool :=
  isdigit (replace "." "" (strip_currency value)).

(** The [numeric_values] comprehension over [values]: the conversion
    [float(...)] of a value that passes the filter may raise. *)
Fixpoint numeric_values (values : list string) : result (list PyFloat.float) :=
  match values with
  | [] => Returned []
  | value :: rest =>
      if looks_numeric value then
        x ← or_raise ValueError (PyFloat.parse (strip_currency value));
        xs ← numeric_values rest;
        Returned (x :: xs)
      else numeric_values rest
  end.

(** [abs(calculated_total - expected_total) < 0.01] *)
Definition within_tolerance (calculated_total expected_total : PyFloat.float)
  : bool :=
  PyFloat.ltb (PyFloat.abs (PyFloat.sub calculated_total expected_total))
              PyFloat.tolerance.

(** The condition of the validation branch and the cell it reads:
    [len(all_td_values) > 1 and len(all_td_values[-1]) > 1], then
    [all_td_values[-1][1]]. *)
Definition total_cell (all_td_values : table) : option string :=
  if bool_decide (1 < length all_td_values)
  then row ← last all_td_values; row !! 1
  else None.

(** [calculations], from the point where the rows have been read. *)
Definition calculations (all_td_values : table) : result (list string) :=
  match all_td_values with
  | [] => Returned []
  | _ =>
      let ids := account_ids all_td_values in
      let middle := middle_values all_td_values in
      numbers ← numeric_values (removelast middle);
      match total_cell all_td_values with
      | Some cell =>
          expected_total ← or_raise ValueError
                             (PyFloat.parse (strip_currency cell));
          let calculated_total := PyFloat.sum numbers in
          if within_tolerance calculated_total expected_total
          then Returned ids
          else Raised AssertionError
      | None => Returned ids
      end
  end.

(** The identifier a row contributes: its first cell when that is a
    digit string. *)
Definition identifier_cell (row : list string) : option string :=
  c0 ← head row; if isdigit c0 then Some c0 else None.


(** The tail of [create_savings_account], from the fetched [href]s:
    [activity_links[-1].split("id=")[1]] when ["id="] occurs. *)
Definition last_account_id (activity_links : list string) : result string :=
  match last activity_links with
  | None =>
      Raised (Exception
        "No account activity links found! Account might not have been created.")
  | Some last_link =>
      if contains "id=" last_link
      then or_raise IndexError (split "id=" last_link !! 1)
      else Returned ""
  end.

End NewAccountPage.

(** ** The browser as an environment *)

Module Browser.

(** What a method asks of the page, indexed by the type of the answer.
    [InnerTexts] stands for the loop that reads the text of every cell
    of every row matched by the selector. *)
Inductive request : Type -> Type :=
  | Click (selector : string) : request unit
  | Fill (selector text : string) : request unit
  | SelectOption (selector value : string) : request unit
  | ExpectVisible (selector : string) : request unit
  | WaitForSelector (selector : string) : request unit
  | WaitForLoadState (state : string) : request unit
  | IsVisible (selector : string) : request bool
  | KeyboardPress (key : string) : request unit
  | KeyboardType (text : string) : request unit
  | Screenshot (path : string) : request unit
  | EvaluateHrefs (selector : string) : request (list string)
  | InnerTexts (selector : string) : request (list (list string)).

(** A performed request, as recorded. *)
Definition entry : Type := sigT request.
Definition record {T} (r : request T) : entry := existT T r.

(** The page answers a request, or the request raises; the answer may
    depend on everything requested before. *)
Definition browser : Type := forall T, list entry -> request T -> result T.

(** A method: given the page and the requests so far, a result and the
    requests performed up to it. *)
Definition page (A : Type) : Type :=
  browser -> list entry -> result A * list entry.

Definition ret {A} (a : A) : page A := fun _ log => (Returned a, log).

Definition bind {A B} (m : page A) (k : A -> page B) : page B :=
  fun env log =>
    match m env log with
    | (Returned a, log') => k a env log'
    | (Raised e, log') => (Raised e, log')
    end.

Definition perform {T} (r : request T) : page T :=
  fun env log => (env T log r, log ++ [record r]).

(** A pure step that may raise. *)
Definition lift {A} (r : result A) : page A := fun _ log => (r, log).

(** [try: m except Exception as error: handler(error)] *)
Definition try_except {A} (m : page A) (handler : exn -> page A) : page A :=
  fun env log =>
    match m env log with
    | (Returned a, log') => (Returned a, log')
    | (Raised e, log') => handler e env log'
    end.

(** A page on which every request succeeds: nothing is visible and
    nothing is found. *)
Definition cooperative : browser :=
  fun T _ r =>
    match r in request T return result T with
    | IsVisible _ => Returned false
    | EvaluateHrefs _ => Returned []
    | InnerTexts _ => Returned []
    | _ => Returned tt
    end.

End Browser.

#[global] Instance page_ret : MRet Browser.page := @Browser.ret.
#[global] Instance page_bind : MBind Browser.page :=
  fun _ _ k m => Browser.bind m k.

(** ** [NewAccountPage]: the methods against the browser *)

Module NewAccountPageMethods.
Import Browser.

(** The double quote of the attribute selectors. *)
Definition dq : string := String "034"%char "".

(** [tag[key="value"]] *)
Definition attr (tag key value : string) : string :=
  tag +:+ "[" +:+ key +:+ "=" +:+ dq +:+ value +:+ dq +:+ "]".

Definition activity_links_selector : string := "a[href^='activity.htm']".
Definition account_rows_selector : string :=
  attr "//*" "@id" "accountTable" +:+ "/tbody/tr".

Definition create_savings_account : page string :=
  perform (Click "text=Open New Account");;
  perform (ExpectVisible "combobox");;
  perform (SelectOption "combobox" "1");;
  perform (Click "input[type='button']");;
  perform (ExpectVisible "text=Accounts Overview");;
  perform (Click "text=Accounts Overview");;
  perform (WaitForSelector activity_links_selector);;
  activity_links ← perform (EvaluateHrefs activity_links_selector);
  lift (NewAccountPage.last_account_id activity_links).

Definition calculations : page (list string) :=
  perform (WaitForSelector account_rows_selector);;
  all_td_values ← perform (InnerTexts account_rows_selector);
  lift (NewAccountPage.calculations all_td_values).

(** The form submission at the end of [transfer_funds]. *)
Definition submit_transfer (from_account to_account : string) : page unit :=
  perform (Click "text=Transfer Funds");;
  perform (Fill (attr "input" "name" "amount") "1000");;
  perform (SelectOption (attr "select" "name" "fromAccountId") from_account);;
  perform (SelectOption (attr "select" "name" "toAccountId") to_account);;
  perform (Click (attr "input" "value" "Transfer")).

(** [transfer_funds] with the recovery steps taken as a parameter. *)
Definition transfer_funds_with (recover : page (list string))
    (account_ids : list string) : page unit :=
  account_ids ←
    (if bool_decide (length account_ids < 2) then
       new_account_ids ← recover;
       if bool_decide (length new_account_ids < 2)
       then ret None
       else ret (Some new_account_ids)
     else ret (Some account_ids));
  match account_ids with
  | None => ret tt
  | Some account_ids =>
      if bool_decide (length account_ids < 2) then ret tt
      else
        match account_ids !! 0, account_ids !! 1 with
        | Some from_account, Some to_account =>
            submit_transfer from_account to_account
        | _, _ => lift (Raised IndexError)
        end
  end.

(** The recovery steps of the source: open another account, wait, and
    read the table again. *)
Definition recover_accounts : page (list string) :=
  create_savings_account;;
  perform (WaitForLoadState "networkidle");;
  calculations.

Definition transfer_funds : list string -> page unit :=
  transfer_funds_with recover_accounts.

Definition fill_phone : page unit :=
  visible ← perform (IsVisible (attr "input" "name" "phoneNumber"));
  if visible : bool then perform (Fill (attr "input" "name" "phoneNumber") "1234567890")
  else
    perform (KeyboardPress "Tab");;
    perform (KeyboardType "1234567890").

Definition pay_bill (account_ids : list string) : page unit :=
  match account_ids with
  | [] => ret tt
  | from_account :: _ =>
      perform (Click "text=Bill Pay");;
      perform (Fill (attr "input" "name" "payee.name") "Electricity Company");;
      perform (Fill (attr "input" "name" "payee.address.street") "123 Main St");;
      perform (Fill (attr "input" "name" "payee.address.city") "New York");;
      perform (Fill (attr "input" "name" "payee.address.state") "NY");;
      perform (Fill (attr "input" "name" "payee.address.zipCode") "10001");;
      proceed ← try_except (fill_phone ;; ret true)
                   (fun _ => perform (Screenshot "phone_field_error.png");;
                             ret false);
      if proceed : bool then
        perform (SelectOption (attr "select" "name" "fromAccountId") from_account);;
        perform (Fill (attr "input" "name" "amount") "500");;
        perform (Click (attr "input" "value" "Send Payment"));;
        perform (WaitForLoadState "networkidle")
      else ret tt
  end.

End NewAccountPageMethods.

(** ** The reconciliation as the specification words it

    Section 4.1 of the specification, step by step, for comparison with
    [NewAccountPage.calculations]. *)

Module Spec.
Import PyStr NewAccountPage.

(** Step 1: the last row is the totals row when there is more than one
    row. *)
Definition has_totals_row (rows : table) : bool :=
  bool_decide (1 < length rows).

Definition data_rows (rows : table) : table :=
  if has_totals_row rows then removelast rows else rows.

Definition totals_row (rows : table) : option (list string) :=
  if has_totals_row rows then last rows else None.

(** Step 2: first cells that are syntactically a non-negative
    integer. *)
Definition is_non_negative_integer (s : string) : bool :=
  match s with
  | EmptyString => false
  | _ => all_chars is_ascii_digit s
  end.

Definition identifiers (rows : table) : list string :=
  row ← data_rows rows;
  match row with
  | c0 :: _ => if is_non_negative_integer c0 then [c0] else []
  | [] => []
  end.

(** Step 3: second cells other than the placeholder and the word
    Total, parsed after removing the currency symbol and the grouping
    separators; what does not parse is left out. *)
Definition parse_balance (cell : string) : option PyFloat.float :=
  PyFloat.parse (strip_currency cell).

Definition balance_cells (rows : table) : list string :=
  row ← data_rows rows;
  match row with
  | _ :: c1 :: _ => if bool_decide (c1 ∈ [NBSP; "Total"]) then [] else [c1]
  | _ => []
  end.

Definition parsed_balances (rows : table) : list PyFloat.float :=
  omap parse_balance (balance_cells rows).

(** Step 4. *)
Definition computed_sum (rows : table) : PyFloat.float :=
  PyFloat.sum (parsed_balances rows).

(** Step 5. *)
Definition expected_total (rows : table) : option PyFloat.float :=
  row ← totals_row rows; cell ← row !! 1; parse_balance cell.

Definition agreement (rows : table) : bool :=
  match expected_total rows with
  | Some total => within_tolerance (computed_sum rows) total
  | None => true
  end.

End Spec.

(** ** [load_demo_credentials] *)

Module ApplicationConstants.

(** What [json.load] returns. *)
#[warnings="-register-all"]
Inductive json :=
  | JNull
  | JBool (b : bool)
  | JInt (n : Z)
  | JFloat (x : PyFloat.float)
  | JStr (s : string)
  | JList (items : list json)
  | JDict (members : gmap string json).

(** The truth value of a loaded value. *)
Definition truthy (v : json) : bool :=
  match v with
  | JNull => false
  | JBool b => b
  | JInt n => negb (n =? 0)%Z
  | JFloat (S754_zero _) => false
  | JFloat _ => true
  | JStr s => negb (String.eqb s "")
  | JList items => match items with [] => false | _ => true end
  | JDict members => negb (bool_decide (members = ∅))
  end.

(** [credentials.get(key)]: only a dict has the method. *)
Definition get (credentials : json) (key : string) : result json :=
  match credentials with
  | JDict members => Returned (default JNull (members !! key))
  | _ => Raised AttributeError
  end.

(** [credentials[key]] *)
Definition getitem (credentials : json) (key : string) : result json :=
  match credentials with
  | JDict members => or_raise KeyError (members !! key)
  | _ => Raised TypeError
  end.

(** What the function finds at [data/credentials.json]. *)
Inductive credentials_file :=
  | Missing                       (* [os.path.exists] answers False *)
  | Unreadable                    (* [open] raises *)
  | Malformed                     (* [json.load] raises *)
  | Holds (credentials : json).   (* [json.load] returns *)

(** The file holds a dict with a true [username] and a true
    [password]. *)
Definition has_credentials (file : credentials_file) : bool :=
  match file with
  | Holds (JDict members) =>
      truthy (default JNull (members !! "username"))
      && truthy (default JNull (members !! "password"))
  | _ => false
  end.

Definition fallback : gmap string string :=
  {[ "username" := "john"; "password" := "demo" ]}.

Section Str.
(** [str(v)] of a value that is not a [str]: its [repr]. *)
Variable repr : json -> string.

Definition str (v : json) : string :=
  match v with
  | JStr s => s
  | _ => repr v
  end.

(** The body of the [try]: the dict it returns, or [None] when it
    runs to its end without returning. *)
Definition try_body (file : credentials_file)
  : result (option (gmap string string)) :=
  match file with
  | Missing => Returned None
  | Unreadable => Raised OSError
  | Malformed => Raised JSONDecodeError
  | Holds credentials =>
      username ← get credentials "username";
      both ← (if truthy username then get credentials "password"
              else Returned username);
      if truthy both then
        username ← getitem credentials "username";
        password ← getitem credentials "password";
        Returned (Some {[ "username" := str username;
                          "password" := str password ]})
      else Returned None
  end.

(** [except Exception] swallows whatever the body raises; after the
    [try] the fallback is returned. *)
Definition load_demo_credentials (file : credentials_file)
  : result (gmap string string) :=
  match try_body file with
  | Returned (Some credentials) => Returned credentials
  | Returned None => Returned fallback
  | Raised _ => Returned fallback
  end.
End Str.

End ApplicationConstants.

(** ** Whole amounts *)

Module WholeAmounts.
Import NewAccountPage.






End WholeAmounts.

(** ** Shapes of balance texts *)

Module Amounts.
Import PyStr.

Fixpoint any_char (p : ascii -> bool) (s : string) : bool :=
  match s with
  | EmptyString => false
  | String c s' => p c || any_char p s'
  end.

Fixpoint count_char (p : ascii -> bool) (s : string) : nat :=
  match s with
  | EmptyString => 0
  | String c s' => (if p c then 1 else 0) + count_char p s'
  end.

Definition is_point (c : ascii) : bool := Ascii.eqb c ".".

(** The currency symbol and the grouping separator. *)
Definition is_currency (c : ascii) : bool :=
  Ascii.eqb c "$" || Ascii.eqb c ",".

(** The characters of a balance that passes the digit filter. *)
Definition amount_char (c : ascii) : bool :=
  char_isdigit c || is_currency c || is_point c.

(** A plain amount: digits [0-9] with at most one point, and the
    currency symbol and grouping separators anywhere. *)
Definition plain_amount (value : string) : bool :=
  all_chars (fun c => is_ascii_digit c || is_currency c || is_point c) value
  && any_char is_ascii_digit value
  && bool_decide (count_char is_point value <= 1).

(** The characters left of a balance that passes the digit filter once
    the currency symbols and grouping separators are removed. *)
Definition num_char (c : ascii) : bool := char_isdigit c || is_point c.

(** Digits [0-9] with at most one point. *)
Definition plain_number (s : string) : bool :=
  all_chars (fun c => is_ascii_digit c || is_point c) s
  && any_char is_ascii_digit s
  && bool_decide (count_char is_point s <= 1).

(** What the three [replace] calls of the digit filter leave of a
    text. *)
Definition digits_of (value : string) : string :=
  replace "." "" (NewAccountPage.strip_currency value).

Definition digits (ds : list ascii) : Prop :=
  Forall (fun c => is_ascii_digit c = true) ds.

Definition no_digit_ahead (rest : list ascii) : Prop :=
  match rest with
  | [] => True
  | c :: _ => is_ascii_digit c = false
  end.

(** The texts [float] reads as a plain decimal: digits, and possibly a
    point and more digits, with one digit at least. *)
Definition plain_split (cs ip fp : list ascii) : Prop :=
  digits ip /\ digits fp /\ ip ++ fp <> []
  /\ ((cs = ip /\ fp = []) \/ cs = ip ++ "."%char :: fp).

(** A balance that stops [numeric_values]: it passes the filter and is
    no plain amount. *)
Definition stops_conversion (value : string) : Prop :=
  NewAccountPage.looks_numeric value = true /\ plain_amount value = false.

End Amounts.

(** ** What a run asked of the page *)

Module Trace.
Import Browser NewAccountPageMethods.

Definition is_click (selector : string) (e : entry) : bool :=
  match projT2 e with
  | Click s => String.eqb s selector
  | _ => false
  end.

Definition is_fill (selector text : string) (e : entry) : bool :=
  match projT2 e with
  | Fill s t => String.eqb s selector && String.eqb t text
  | _ => false
  end.

Definition is_select (selector value : string) (e : entry) : bool :=
  match projT2 e with
  | SelectOption s v => String.eqb s selector && String.eqb v value
  | _ => false
  end.

Definition is_keyboard_type (text : string) (e : entry) : bool :=
  match projT2 e with
  | KeyboardType t => String.eqb t text
  | _ => false
  end.

Definition is_screenshot (e : entry) : bool :=
  match projT2 e with
  | Screenshot _ => true
  | _ => false
  end.

Definition is_inner_texts (e : entry) : bool :=
  match projT2 e with
  | InnerTexts _ => true
  | _ => false
  end.

(** How many of the recorded requests satisfy [p]. *)
Definition count (p : entry -> bool) (log : list entry) : nat :=
  length (List.filter p log).

(** The requests of [create_savings_account], in order. *)
Definition create_script : list entry :=
  [record (Click "text=Open New Account");
   record (ExpectVisible "combobox");
   record (SelectOption "combobox" "1");
   record (Click "input[type='button']");
   record (ExpectVisible "text=Accounts Overview");
   record (Click "text=Accounts Overview");
   record (WaitForSelector activity_links_selector);
   record (EvaluateHrefs activity_links_selector)].

(** The exception a recorded request raises when it is made after
    [log], if it raises. *)
Definition raises (env : browser) (log : list entry) (e : entry)
  : option exn :=
  match env (projT1 e) log (projT2 e) with
  | Returned _ => None
  | Raised x => Some x
  end.

(** The requests of [script] that are made from [log] on when each is
    made only after the one before it was answered: those up to the
    first that raises, that one included. *)
Fixpoint performed (env : browser) (log script : list entry) : list entry :=
  match script with
  | [] => []
  | e :: rest =>
      e :: match raises env log e with
           | None => performed env (log ++ [e]) rest
           | Some _ => []
           end
  end.

(** The exception of the first request of [script] that raises. *)
Fixpoint first_raised (env : browser) (log script : list entry)
  : option exn :=
  match script with
  | [] => None
  | e :: rest =>
      match raises env log e with
      | None => first_raised env (log ++ [e]) rest
      | Some x => Some x
      end
  end.

End Trace.

(** ** The account steps of the end-to-end test

    Steps 5 to 8 of
    [test_complete_user_journey_registration_to_account_management]. *)

Module EndToEnd.
Import Browser NewAccountPageMethods.

(** [assert condition] *)
Definition assert (condition : bool) : page unit :=
  lift (if condition then Returned tt else Raised AssertionError).

Definition account_steps : page unit :=
  account_id ← create_savings_account;
  assert (negb (String.eqb account_id ""));;
  account_ids ← calculations;
  assert (bool_decide (0 < length account_ids));;
  (if bool_decide (2 <= length account_ids)
   then transfer_funds account_ids else ret tt);;
  match account_ids with
  | [] => ret tt
  | _ => pay_bill account_ids
  end.

End EndToEnd.

(** ** Saved credentials and the fixtures that read them *)

From stdpp Require Import pretty.

Module Registration.
Import ApplicationConstants.

Definition words : list string :=
  ["alpha"; "beta"; "gamma"; "delta"; "omega"; "zeta"].

Definition DEFAULT_PASSWORD : string := "Password123".

(** [RegistrationPage._generate_random_username], with [h] the value of
    [hash(str(self.page))]. *)
Definition generate_random_username (h : Z) : result string :=
  let numbers := pretty (1000 + h `mod` 9000)%Z in
  word ← or_raise IndexError
           (words !! Z.to_nat (h `mod` Z.of_nat (length words)));
  Returned (word +:+ numbers +:+ "@gmail.com").

(** [RegistrationPage._save_credentials]: [writable] tells whether the
    directory can be made and the file opened for writing.  The file
    then holds what [json.dump] wrote, which [json.load] reads back as
    the dict of the two strings. *)
Definition save_credentials (writable : bool) (username password : string)
    (file : credentials_file) : result unit * credentials_file :=
  if writable
  then (Returned tt,
        Holds (JDict {[ "username" := JStr username;
                        "password" := JStr password ]}))
  else (Raised OSError, file).

(** The [credentials] fixtures of [conftest.py] and of
    [TestParaBankAPI]: the loaded value as it is, or the demo pair when
    there is no file. *)
Definition credentials_fixture (file : credentials_file) : result json :=
  match file with
  | Missing =>
      Returned (JDict {[ "username" := JStr "john";
                         "password" := JStr "demo" ]})
  | Unreadable => Raised OSError
  | Malformed => Raised JSONDecodeError
  | Holds credentials => Returned credentials
  end.

End Registration.

(** ** The session cookie of the API tests *)

Module SessionCookie.
Import PyStr.

(** The items of [for cookie in cookies] when [cookies] is a [str]: its
    characters, each a string of length one. *)
Definition items (cookies : string) : list string :=
  (fun c => String c "") <$> list_ascii_of_string cookies.

(** The loop of the [session_id] fixture over the items of
    [cookies]: [None] when no item holds ["JSESSIONID="]. *)
Definition jsession_match (cookies : list string) : result (option string) :=
  match List.find (contains "JSESSIONID=") cookies with
  | Some cookie =>
      after ← or_raise IndexError (split "JSESSIONID=" cookie !! 1);
      value ← or_raise IndexError (split ";" after !! 0);
      Returned (Some value)
  | None => Returned None
  end.

(** The [session_id] fixture from the value of
    [response.headers.get('set-cookie')], a [str] or [None]. *)
Definition session_id (cookies : option string) : result string :=
  match cookies with
  | None | Some EmptyString => Raised (Exception "No cookies found")
  | Some cookies =>
      found ← jsession_match (items cookies);
      match found with
      | None | Some EmptyString =>
          Raised (Exception "JSESSIONID not found in cookies")
      | Some value => Returned value
      end
  end.

End SessionCookie.

(** ** [int(str)] and [str.lower] *)

Module PyInt.
Import PyStr.

(** The default of [sys.int_info.default_max_str_digits]. *)
Definition max_str_digits : nat := 4300.

(** [int(s)] in base ten: white space around, an optional sign, digits
    with single underscores between them; [None] stands for
    [ValueError]. *)
Definition parse (s : string) : option Z :=
  cs ← PyFloat.drop_underscores "000"%char
         (map PyFloat.to_ascii_space (list_ascii_of_string s));
  let '(neg, body) := PyFloat.take_sign (PyFloat.strip cs) in
  let '(ds, rest) := PyFloat.span_digits body in
  match ds, rest with
  | _ :: _, [] =>
      if bool_decide (length ds <= max_str_digits)
      then Some (if neg then (- PyFloat.digits_value ds)%Z
                 else PyFloat.digits_value ds)
      else None
  | _, _ => None
  end.

(** [c.lower()]: the capitals [A-Z] and U+00C0 to U+00DE but the
    multiplication sign. *)
Definition lower_char (c : ascii) : ascii :=
  let n := code c in
  if ((65 <=? n) && (n <=? 90)
      || (192 <=? n) && (n <=? 222) && negb (n =? 215))%N
  then ascii_of_N (n + 32) else c.

Fixpoint lower (s : string) : string :=
  match s with
  | EmptyString => EmptyString
  | String c s' => String (lower_char c) (lower s')
  end.

End PyInt.

(** ** [Config] *)

Module Config.

Record config := {
  name : string;
  version : string;
  base_url : string;
  headless : bool;
  slow_mo : Z;
  timeout : Z;
  browser_type : string;
  viewport_width : Z;
  viewport_height : Z;
  retry_attempts : Z;
  screenshot_quality : Z;
  timeouts : gmap string Z
}.

(** [os.getenv(variable, default)] *)
Definition getenv (environ : gmap string string) (variable unset : string)
  : string :=
  default unset (environ !! variable).

(** [int(os.getenv(variable, default))] *)
Definition getenv_int (environ : gmap string string)
    (variable unset : string) : result Z :=
  or_raise ValueError (PyInt.parse (getenv environ variable unset)).

(** [Config.__init__] *)
Definition init (environ : gmap string string) : result config :=
  let base_url := getenv environ "BASE_URL" "https://parabank.parasoft.com" in
  let headless :=
    String.eqb (PyInt.lower (getenv environ "HEADLESS" "true")) "true" in
  slow_mo ← getenv_int environ "SLOW_MO" "0";
  timeout ← getenv_int environ "TIMEOUT" "30000";
  let browser_type := getenv environ "BROWSER" "chromium" in
  viewport_width ← getenv_int environ "VIEWPORT_WIDTH" "1920";
  viewport_height ← getenv_int environ "VIEWPORT_HEIGHT" "1080";
  retry_attempts ← getenv_int environ "RETRY_ATTEMPTS" "3";
  screenshot_quality ← getenv_int environ "SCREENSHOT_QUALITY" "80";
  default_timeout ← getenv_int environ "DEFAULT_TIMEOUT" "30000";
  short_timeout ← getenv_int environ "SHORT_TIMEOUT" "5000";
  long_timeout ← getenv_int environ "LONG_TIMEOUT" "60000";
  network_idle ← getenv_int environ "NETWORK_IDLE_TIMEOUT" "1000";
  Returned {|
    name := "ParaBank";
    version := "1.0.0";
    base_url := base_url;
    headless := headless;
    slow_mo := slow_mo;
    timeout := timeout;
    browser_type := browser_type;
    viewport_width := viewport_width;
    viewport_height := viewport_height;
    retry_attempts := retry_attempts;
    screenshot_quality := screenshot_quality;
    timeouts := {[ "default" := default_timeout;
                   "short" := short_timeout;
                   "long" := long_timeout;
                   "network_idle" := network_idle ]}
  |}.

(** [self.timeouts.get(timeout_type, self.timeouts["default"])] *)
Definition get_timeout (self : config) (timeout_type : string) : result Z :=
  fallback ← or_raise KeyError (timeouts self !! "default");
  Returned (default fallback (timeouts self !! timeout_type)).

(** The configuration of an environment that sets none of the
    variables. *)
Definition unset_config : config := {|
  name := "ParaBank";
  version := "1.0.0";
  base_url := "https://parabank.parasoft.com";
  headless := true;
  slow_mo := 0;
  timeout := 30000;
  browser_type := "chromium";
  viewport_width := 1920;
  viewport_height := 1080;
  retry_attempts := 3;
  screenshot_quality := 80;
  timeouts := {[ "default" := 30000%Z; "short" := 5000%Z;
                 "long" := 60000%Z; "network_idle" := 1000%Z ]}
|}.

(** The variables [Config.__init__] converts with [int], each with its
    default. *)
Definition integer_variables : list (string * string) :=
  [("SLOW_MO", "0"); ("TIMEOUT", "30000"); ("VIEWPORT_WIDTH", "1920");
   ("VIEWPORT_HEIGHT", "1080"); ("RETRY_ATTEMPTS", "3");
   ("SCREENSHOT_QUALITY", "80"); ("DEFAULT_TIMEOUT", "30000");
   ("SHORT_TIMEOUT", "5000"); ("LONG_TIMEOUT", "60000");
   ("NETWORK_IDLE_TIMEOUT", "1000")].

End Config.

(** * Properties *)

Import PyStr NewAccountPage.

(** ** Rows, cells and the totals row *)

Lemma account_ids_app (xs ys : table) :
  account_ids (xs ++ ys) = account_ids xs ++ account_ids ys.
Proof. unfold account_ids. apply bind_app. Qed.

Lemma middle_values_app (xs ys : table) :
  middle_values (xs ++ ys) = middle_values xs ++ middle_values ys.
Proof. unfold middle_values. apply bind_app. Qed.

(** The cells that [float] rejects: the word Total and the placeholder. *)
Lemma parse_placeholder cell :
  cell ∈ ["Total"; NBSP] -> PyFloat.parse (strip_currency cell) = None.
Proof.
  intros Hin. apply elem_of_cons in Hin as [->|Hin]; [by vm_compute|].
  apply elem_of_cons in Hin as [->|Hin]; [by vm_compute|].
  by apply elem_of_nil in Hin.
Qed.

(** A table with a total cell is a non-empty list of data rows followed
    by a last row with a second cell. *)
Lemma total_cell_Some (rows : table) cell :
  total_cell rows = Some cell ->
  exists data c0 rest,
    rows = data ++ [c0 :: cell :: rest] /\ data <> [].
Proof.
  unfold total_cell. case_bool_decide as Hlen; [|done].
  destruct (last rows) as [row|] eqn:Hlast; [|done]. simpl.
  intros Hcell. apply last_Some in Hlast as [data ->].
  destruct row as [|c0 [|c1 rest]]; simplify_eq/=.
  exists data, c0, rest. split; [done|].
  intros ->. simpl in Hlen. lia.
Qed.

Lemma total_cell_short (rows : table) :
  length rows <= 1 -> total_cell rows = None.
Proof.
  intros Hlen. unfold total_cell. case_bool_decide; [lia|done].
Qed.


(** When the total cell converts, the slice [middle_values[:-1]] holds
    the second cells of the rows before the last. *)
Lemma middle_values_data (rows : table) cell total :
  total_cell rows = Some cell ->
  PyFloat.parse (strip_currency cell) = Some total ->
  removelast (middle_values rows) = middle_values (removelast rows).
Proof.
  intros Hcell Hparse.
  apply total_cell_Some in Hcell as (data & c0 & rest & -> & _).
  rewrite middle_values_app, List.removelast_last.
  assert (middle_values [c0 :: cell :: rest] = [cell]) as ->.
  { unfold middle_values. simpl. case_bool_decide as Hin; [|done].
    apply parse_placeholder in Hin. congruence. }
  by rewrite List.removelast_last.
Qed.

Lemma calculations_nonempty (rows : table) :
  rows <> [] ->
  calculations rows =
    numbers ← numeric_values (removelast (middle_values rows));
    match total_cell rows with
    | Some cell =>
        expected_total ← or_raise ValueError (PyFloat.parse (strip_currency cell));
        if within_tolerance (PyFloat.sum numbers) expected_total
        then Returned (account_ids rows)
        else Raised AssertionError
    | None => Returned (account_ids rows)
    end.
Proof. by destruct rows. Qed.

Lemma calculations_short (rows : table) :
  length rows <= 1 -> calculations rows = Returned (account_ids rows).
Proof.
  intros Hlen.
  destruct rows as [|row [|row' rows]]; [done| |simpl in Hlen; lia].
  rewrite calculations_nonempty by done.
  assert (removelast (middle_values [row]) = []) as ->.
  { unfold middle_values. simpl.
    destruct row as [|c0 [|c1 rest]]; simpl; [done..|].
    by case_bool_decide. }
  by rewrite total_cell_short.
Qed.

(** The outcome of [calculations] when the total cell converts and the
    balances of the rows before the last convert. *)
Lemma calculations_with_total (rows : table) cell total numbers :
  total_cell rows = Some cell ->
  PyFloat.parse (strip_currency cell) = Some total ->
  numeric_values (middle_values (removelast rows)) = Returned numbers ->
  calculations rows =
    if within_tolerance (PyFloat.sum numbers) total
    then Returned (account_ids rows) else Raised AssertionError.
Proof.
  intros Hcell Hparse Hnumbers.
  rewrite calculations_nonempty.
  - rewrite (middle_values_data rows cell total), Hnumbers by done.
    simpl. by rewrite Hcell, Hparse.
  - intros ->. by vm_compute in Hcell.
Qed.

Lemma account_ids_identifier_cell (rows : table) :
  account_ids rows = omap identifier_cell rows.
Proof.
  induction rows as [|row rows IH]; [done|].
  change (row :: rows) with ([row] ++ rows).
  rewrite account_ids_app, IH. simpl. unfold account_ids, identifier_cell.
  destruct row as [|c0 cells]; simpl; [done|].
  destruct c0 as [|a c0]; [done|]. simpl.
  by destruct (char_isdigit a && all_chars char_isdigit c0).
Qed.

Lemma calculations_returns_account_ids (rows : table) ids :
  calculations rows = Returned ids -> ids = account_ids rows.
Proof.
  destruct rows as [|row rows]; [by intros [= <-]|].
  rewrite calculations_nonempty by done.
  destruct (numeric_values _) as [numbers|]; simpl; [|done].
  destruct (total_cell _) as [cell|]; [|by intros [= <-]].
  destruct (PyFloat.parse _) as [total|]; simpl; [|done].
  destruct (within_tolerance _ _); [by intros [= <-]|done].
Qed.


Lemma numeric_values_raises values e :
  numeric_values values = Raised e -> e = ValueError.
Proof.
  induction values as [|value values IH]; simpl; [done|].
  destruct (looks_numeric value); [|done].
  destruct (PyFloat.parse _); simpl; [|by intros [= <-]].
  destruct (numeric_values values); simpl; [done|].
  intros [= <-]. by apply IH.
Qed.



(** ** Reconciliation: agreement with the total *)

(** C1 (as amended).  Take a table whose last row, of more than one, has
    a second cell that [float] accepts once the currency symbol and the
    grouping separators are removed, and whose other rows have balances
    that all convert.  Then [calculations] returns the identifier list
    exactly when [abs(sum - total) < 0.01] holds in binary64 arithmetic,
    and raises [AssertionError] otherwise.  With at most one row no total
    is read and the identifier list is returned. *)
Theorem calculations_agreement :
  (forall (rows : table) cell total numbers,
      total_cell rows = Some cell ->
      PyFloat.parse (strip_currency cell) = Some total ->
      numeric_values (middle_values (removelast rows)) = Returned numbers ->
      calculations rows =
        if within_tolerance (PyFloat.sum numbers) total
        then Returned (account_ids rows) else Raised AssertionError)
  /\ (forall rows : table,
        length rows <= 1 ->
        total_cell rows = None
        /\ calculations rows = Returned (account_ids rows)).
Proof.
  split.
  - apply calculations_with_total.
  - intros rows Hlen. split.
    + by apply total_cell_short.
    + by apply calculations_short.
Qed.

Lemma calculations_agreement_witness :
  calculations
    [["1001"; "$500.00"]; ["1002"; "$300.00"]; ["Total"; "$800.00"]]
  = Returned ["1001"; "1002"]
  /\ calculations [["1001"; NBSP]] = Returned ["1001"].
Proof.
  split.
  - rewrite (proj1 calculations_agreement _ "$800.00"
               (PyFloat.of_decimal false 800 0)
               [PyFloat.of_decimal false 500 0; PyFloat.of_decimal false 300 0]);
      by vm_compute.
  - apply (proj2 calculations_agreement [["1001"; NBSP]]). simpl. lia.
Defined.

(** The claim C1 fails in two ways.  The balance 0.11 and the total
    0.10 differ by exactly 0.01, which is not below 0.01, and the code
    agrees: the binary64 difference is below the binary64 0.01.  And
    where a balance passes the digit filter and [float] still rejects
    it, the specification leaves the cell out, so that the sum 0 agrees
    with the total 0.00, while the code raises [ValueError] and reaches
    no verdict. *)
Lemma calculations_agreement_counterexample :
  (let rows := [["1"; "$0.11"]; ["Total"; "$0.10"]] in
   PyFloat.parse_decimal (list_ascii_of_string "0.11") = Some (11, -2)%Z
   /\ PyFloat.parse_decimal (list_ascii_of_string "0.10") = Some (10, -2)%Z
   /\ (Z.abs (11 - 10) <? 1)%Z = false
   /\ calculations rows = Returned ["1"])
  /\ (let rows := [["1"; "1.2.3"]; ["Total"; "$0.00"]] in
      Spec.expected_total rows = Some PyFloat.zero
      /\ Spec.agreement rows = true
      /\ calculations rows = Raised ValueError).
Proof. by vm_compute. Qed.

(** C2 (evaluation at the failing inputs).  A balance with two points
    passes the filter of [numeric_values] and makes [float] raise, where
    the specification leaves the cell out; and the slice
    [middle_values[:-1]] drops the balance of the only row of a one-row
    table, where the specification counts it. *)
Theorem numeric_values_failing_inputs :
  Spec.parsed_balances [["1"; "1.2.3"]; ["Total"; "$0.00"]] = []
  /\ numeric_values
       (removelast (middle_values [["1"; "1.2.3"]; ["Total"; "$0.00"]]))
     = Raised ValueError
  /\ calculations [["1"; "1.2.3"]; ["Total"; "$0.00"]] = Raised ValueError
  /\ Spec.parsed_balances [["1001"; "$500.00"]]
     = [PyFloat.of_decimal false 500 0]
  /\ numeric_values (removelast (middle_values [["1001"; "$500.00"]]))
     = Returned [].
Proof. by vm_compute. Qed.

(** ** Reconciliation: the identifier list *)

(** C3 (as amended).  When [calculations] returns, its list holds, in
    row order, the first cell of every row, the last row included, whose
    first cell is a digit string; a row without such a cell, wherever it
    stands, contributes nothing and stops nothing. *)
Theorem calculations_identifier_list :
  (forall (rows : table) ids,
      calculations rows = Returned ids -> ids = omap identifier_cell rows)
  /\ (forall (before after : table) row,
        identifier_cell row = None ->
        omap identifier_cell (before ++ row :: after)
        = omap identifier_cell (before ++ after)).
Proof.
  split.
  - intros rows ids Hids.
    apply calculations_returns_account_ids in Hids as ->.
    apply account_ids_identifier_cell.
  - intros before after row Hrow.
    rewrite !omap_app. simpl. by rewrite Hrow.
Qed.

Lemma calculations_identifier_list_witness :
  ["1001"; "1002"]
  = omap identifier_cell
      [["1001"; "$500.00"]; ["1002"; "$300.00"]; ["Total"; "$800.00"]]
  /\ omap identifier_cell ([["1001"; "$500.00"]] ++ [""; "$1.00"] :: [["7"]])
     = omap identifier_cell ([["1001"; "$500.00"]] ++ [["7"]]).
Proof.
  split.
  - apply (proj1 calculations_identifier_list). by vm_compute.
  - apply (proj2 calculations_identifier_list). by vm_compute.
Defined.

(** The claim C3 fails on a last row whose first cell is a digit string:
    the specification leaves the totals row out, the code returns its
    identifier. *)
Lemma calculations_identifier_list_counterexample :
  let rows := [["1001"; "$5.00"]; ["9999"; "$5.00"]] in
  Spec.identifiers rows = ["1001"]
  /\ calculations rows = Returned ["1001"; "9999"].
Proof. by vm_compute. Qed.

(** ** Reconciliation: what is raised *)




(** ** Reconciliation: perturbing one balance *)

Import WholeAmounts.

(** *** Binary64 arithmetic on whole numbers below [2 ** 53] is exact *)

Section ExactSums.
Local Open Scope Z_scope.





































End ExactSums.



(** ** Reconciliation: empty and one-row tables *)

(** C7.  The empty table gives the empty identifier list and reads no
    total; a one-row table reads no total, never raises, and its row
    counts for the identifier list; a total is read only from the last
    row of a table of more than one row. *)
Theorem calculations_small_tables :
  calculations [] = Returned []
  /\ total_cell [] = None
  /\ (forall row : list string,
        total_cell [row] = None
        /\ calculations [row] = Returned (omap identifier_cell [row]))
  /\ (forall (rows : table) cell,
        total_cell rows = Some cell ->
        1 < length rows
        /\ exists row, last rows = Some row /\ row !! 1 = Some cell).
Proof.
  split; [done|]. split; [done|]. split.
  - intros row. split; [done|].
    rewrite <- account_ids_identifier_cell.
    apply calculations_short. simpl. lia.
  - intros rows cell. unfold total_cell.
    case_bool_decide as Hlen; [|done].
    destruct (last rows) as [row|]; [|done]. simpl.
    intros Hcell. split; [done|]. by exists row.
Qed.

Lemma calculations_small_tables_witness :
  1 < length [["1001"; "$500.00"]; ["Total"; "$500.00"]]
  /\ exists row,
       last [["1001"; "$500.00"]; ["Total"; "$500.00"]] = Some row
       /\ row !! 1 = Some "$500.00".
Proof.
  apply (proj2 (proj2 (proj2 calculations_small_tables))). by vm_compute.
Defined.

(** ** The account identifier of the last link *)

Lemma contains_cons sep c s :
  contains sep (String c s) = starts_with sep (String c s) || contains sep s.
Proof. done. Qed.

Lemma partition_cons sep c s :
  partition sep (String c s) =
    if starts_with sep (String c s)
    then Some (EmptyString, drop (String.length sep) (String c s))
    else match partition sep s with
         | Some (a, b) => Some (String c a, b)
         | None => None
         end.
Proof. done. Qed.

Lemma partition_absent sep s :
  contains sep s = false -> partition sep s = None.
Proof.
  induction s as [|c s IH].
  - simpl. by destruct (starts_with sep "").
  - rewrite contains_cons, partition_cons.
    intros [-> Hs]%orb_false_elim. by rewrite IH.
Qed.

Lemma partition_present sep s :
  is_Some (partition sep s) -> contains sep s = true.
Proof.
  induction s as [|c s IH].
  - simpl. destruct (starts_with sep ""); [done|]. by intros [? ?].
  - rewrite contains_cons, partition_cons.
    destruct (starts_with sep (String c s)); [done|].
    destruct (partition sep s) as [[a b]|]; [|by intros [? ?]].
    intros _. by apply IH.
Qed.

Lemma partition_found sep s :
  contains sep s = true -> is_Some (partition sep s).
Proof.
  induction s as [|c s IH].
  - simpl. by destruct (starts_with sep "").
  - rewrite contains_cons, partition_cons.
    destruct (starts_with sep (String c s)); [done|]. simpl.
    intros [[a b] ->]%IH. done.
Qed.

Lemma append_nil t : "" +:+ t = t.
Proof. done. Qed.

Lemma append_cons c s t : String c s +:+ t = String c (s +:+ t).
Proof. done. Qed.

Lemma starts_with_prefix p s :
  starts_with p s = true -> exists t, s = p +:+ t.
Proof.
  revert s. induction p as [|a p IH]; intros s; [by exists s|].
  destruct s as [|b s]; [done|]. cbn [starts_with].
  intros [Hab Hps]%andb_prop. apply Ascii.eqb_eq in Hab as ->.
  apply IH in Hps as [t ->]. by exists t.
Qed.

Lemma append_nil_r s : s +:+ "" = s.
Proof. induction s as [|c s IH]; [done|]. by rewrite append_cons, IH. Qed.

Lemma length_append s t :
  String.length (s +:+ t) = String.length s + String.length t.
Proof.
  induction s as [|c s IH]; [done|].
  rewrite append_cons. simpl. by rewrite IH.
Qed.

Lemma drop_append p t : drop (String.length p) (p +:+ t) = t.
Proof. induction p as [|a p IH]; [by destruct t|]. by rewrite append_cons. Qed.

(** A cut leaves less than it was given: the three parts add up. *)
Lemma partition_length sep s a b :
  partition sep s = Some (a, b) ->
  String.length s = String.length a + String.length sep + String.length b.
Proof.
  revert a. induction s as [|c s IH]; intros a.
  - simpl. destruct (starts_with sep "") eqn:Hsep; [|done].
    apply starts_with_prefix in Hsep as [t Ht]. intros [= <- <-].
    destruct sep; [done|by rewrite append_cons in Ht].
  - rewrite partition_cons.
    destruct (starts_with sep (String c s)) eqn:Hsep.
    + apply starts_with_prefix in Hsep as [t Ht]. rewrite Ht.
      rewrite drop_append, length_append. by intros [= <- <-].
    + destruct (partition sep s) as [[a' b']|]; [|done].
      intros [= <- <-]. simpl. by rewrite (IH a').
Qed.

(** The fuel of [split] is never exhausted: any fuel that covers the
    length gives the same pieces. *)
Lemma split_from_fuel sep n m s :
  sep <> "" ->
  String.length s <= n -> String.length s <= m ->
  split_from n sep s = split_from m sep s.
Proof.
  intros Hsep. revert m s.
  assert (0 < String.length sep) as Hpos by (destruct sep; [done|simpl; lia]).
  induction n as [|n IH]; intros m s Hn Hm;
    (destruct (partition sep s) as [[a b]|] eqn:Hcut;
     [|by destruct m; simpl; rewrite Hcut]);
    apply partition_length in Hcut as Hlen.
  - lia.
  - destruct m as [|m]; [lia|]. simpl. rewrite Hcut.
    f_equal. apply IH; lia.
Qed.

(** No occurrence of ["id="] can begin in a text free of it and end in
    a following ["id="]. *)
Lemma starts_with_id_straddle c before after :
  starts_with "id=" (String c before) = false ->
  starts_with "id=" (String c (before +:+ "id=" +:+ after)) = false.
Proof.
  destruct before as [|c1 [|c2 before]];
    rewrite ?append_cons, ?append_nil; cbn [starts_with].
  - change (Ascii.eqb "d" "i") with false.
    by destruct (Ascii.eqb "i" c).
  - change (Ascii.eqb "=" "i") with false.
    by destruct (Ascii.eqb "i" c), (Ascii.eqb "d" c1).
  - done.
Qed.

Lemma partition_id_first before after :
  contains "id=" before = false ->
  partition "id=" (before +:+ "id=" +:+ after) = Some (before, after).
Proof.
  induction before as [|c before IH]; [done|].
  rewrite contains_cons. intros [Hc Hbefore]%orb_false_elim.
  change (String c before +:+ "id=" +:+ after)
    with (String c (before +:+ "id=" +:+ after)).
  rewrite partition_cons, starts_with_id_straddle by done.
  by rewrite IH.
Qed.

(** The first piece of a split, whatever the fuel. *)
Lemma split_from_head fuel sep s :
  split_from fuel sep s !! 0 =
    Some match partition sep s with
         | Some (a, _) => a
         | None => s
         end.
Proof. destruct fuel; simpl; by destruct (partition sep s) as [[a b]|]. Qed.

(** The second piece of a split at ["id="]. *)
Lemma split_id_second link before after :
  partition "id=" link = Some (before, after) ->
  split "id=" link !! 1 =
    Some match partition "id=" after with
         | Some (id, _) => id
         | None => after
         end.
Proof.
  intros Hlink. unfold split.
  destruct link as [|c link]; [done|].
  cbn [String.length split_from]. rewrite Hlink.
  apply (split_from_head _ "id=" after).
Qed.

Lemma last_account_id_eq links link :
  last links = Some link ->
  last_account_id links =
    Returned match partition "id=" link with
             | Some (_, after) =>
                 match partition "id=" after with
                 | Some (id, _) => id
                 | None => after
                 end
             | None => EmptyString
             end.
Proof.
  intros Hlast. unfold last_account_id. rewrite Hlast.
  destruct (partition "id=" link) as [[before after]|] eqn:Hlink.
  - rewrite partition_present by (by rewrite Hlink).
    by rewrite (split_id_second _ _ _ Hlink).
  - destruct (contains "id=" link) eqn:Hin; [|done].
    apply partition_found in Hin as [? Hfound]. congruence.
Qed.

(** C8 (as amended).  [create_savings_account] raises exactly when no
    link was fetched.  Otherwise it returns the empty string when the
    last link has no ["id="], and else the text between the first
    ["id="] of the last link and the next ["id="], or the end of the
    link when there is no other. *)
Theorem last_account_id_result :
  (exists e, last_account_id [] = Raised e)
  /\ (forall links link, exists id,
        last_account_id (links ++ [link]) = Returned id)
  /\ (forall links link,
        contains "id=" link = false ->
        last_account_id (links ++ [link]) = Returned EmptyString)
  /\ (forall links before id rest,
        contains "id=" before = false ->
        contains "id=" id = false ->
        rest = EmptyString \/ starts_with "id=" rest = true ->
        last_account_id (links ++ [before +:+ "id=" +:+ id +:+ rest])
        = Returned id).
Proof.
  split; [by eexists|]. split; [|split].
  - intros links link. eexists. apply last_account_id_eq, last_snoc.
  - intros links link Hlink.
    rewrite (last_account_id_eq _ link) by apply last_snoc.
    by rewrite partition_absent.
  - intros links before id rest Hbefore Hid Hrest.
    rewrite (last_account_id_eq _ (before +:+ "id=" +:+ id +:+ rest))
      by apply last_snoc.
    rewrite partition_id_first by done.
    destruct Hrest as [->|Hrest].
    + by rewrite append_nil_r, partition_absent.
    + apply starts_with_prefix in Hrest as [rest' ->].
      by rewrite partition_id_first.
Qed.

Lemma last_account_id_result_witness :
  last_account_id (["activity.htm?id=13344"] ++ ["activity.htm?id=13455"])
  = Returned "13455".
Proof.
  apply (proj2 (proj2 (proj2 last_account_id_result))
           ["activity.htm?id=13344"] "activity.htm?" "13455" EmptyString);
    [by vm_compute..|by left].
Defined.

(** The claim C8 fails on a last link with a second ["id="]: the text
    following the first ["id="] is [1&id=2], the code returns [1&]. *)
Lemma last_account_id_result_counterexample :
  let link := "activity.htm?id=1&id=2" in
  link = "activity.htm?" +:+ "id=" +:+ "1&id=2"
  /\ contains "id=" "activity.htm?" = false
  /\ last_account_id [link] = Returned "1&"
  /\ last_account_id [link] <> Returned "1&id=2".
Proof. by vm_compute. Qed.

(** ** Transfers and bill payment against the browser *)

Import Browser NewAccountPageMethods.

(** With a page on which every request succeeds, [pay_bill] goes
    through the whole form. *)
Example pay_bill_requests :
  pay_bill ["13344"] cooperative [] =
    (Returned tt,
     [record (Click "text=Bill Pay");
      record (Fill (attr "input" "name" "payee.name") "Electricity Company");
      record (Fill (attr "input" "name" "payee.address.street") "123 Main St");
      record (Fill (attr "input" "name" "payee.address.city") "New York");
      record (Fill (attr "input" "name" "payee.address.state") "NY");
      record (Fill (attr "input" "name" "payee.address.zipCode") "10001");
      record (IsVisible (attr "input" "name" "phoneNumber"));
      record (KeyboardPress "Tab");
      record (KeyboardType "1234567890");
      record (SelectOption (attr "select" "name" "fromAccountId") "13344");
      record (Fill (attr "input" "name" "amount") "500");
      record (Click (attr "input" "value" "Send Payment"));
      record (WaitForLoadState "networkidle")]).
Proof. reflexivity. Qed.

(** With one identifier and a page that shows no link after the new
    account is opened, [transfer_funds] stops at the exception of
    [create_savings_account]. *)
Example transfer_funds_recovery_raises :
  fst (transfer_funds ["13344"] cooperative [])
  = Raised (Exception
      "No account activity links found! Account might not have been created.").
Proof. reflexivity. Qed.

(** C5.  With two identifiers or more, [transfer_funds] submits the
    transfer from the first to the second and does not run the recovery
    steps.  With fewer, it runs the recovery steps once, from the state
    it was called in: an exception of theirs goes through; a list of two
    identifiers or more has its first two submitted as source and
    destination; a shorter list ends the call with no transfer
    request. *)
Theorem transfer_funds_plan :
  forall (recover : page (list string)) (account_ids : list string) env log,
    (2 <= length account_ids ->
     exists from_account to_account rest,
       account_ids = from_account :: to_account :: rest
       /\ transfer_funds_with recover account_ids env log
          = submit_transfer from_account to_account env log)
    /\ (length account_ids < 2 ->
        transfer_funds_with recover account_ids env log =
          match recover env log with
          | (Returned (from_account :: to_account :: _), log') =>
              submit_transfer from_account to_account env log'
          | (Returned _, log') => (Returned tt, log')
          | (Raised e, log') => (Raised e, log')
          end).
Proof.
  intros recover ids env log. split; intros Hlen.
  - destruct ids as [|from_account [|to_account rest]];
      [simpl in Hlen; lia..|].
    exists from_account, to_account, rest. split; [done|].
    unfold transfer_funds_with.
    rewrite bool_decide_eq_false_2 by (simpl; lia). reflexivity.
  - unfold transfer_funds_with.
    rewrite bool_decide_eq_true_2 by done.
    unfold mbind, page_bind, bind.
    destruct (recover env log) as [[new_ids|e] log']; [|done].
    destruct new_ids as [|from_account [|to_account rest]]; done.
Qed.

Lemma transfer_funds_plan_witness :
  transfer_funds_with (Browser.ret ["13344"; "13455"]) ["13344"] cooperative []
  = submit_transfer "13344" "13455" cooperative []
  /\ exists from_account to_account rest,
       ["13344"; "13455"; "13566"] = from_account :: to_account :: rest
       /\ transfer_funds_with recover_accounts ["13344"; "13455"; "13566"]
            cooperative []
          = submit_transfer from_account to_account cooperative [].
Proof.
  split.
  - rewrite (proj2 (transfer_funds_plan (Browser.ret ["13344"; "13455"])
                      ["13344"] cooperative [])); [done|simpl; lia].
  - apply (proj1 (transfer_funds_plan recover_accounts
                    ["13344"; "13455"; "13566"] cooperative [])).
    simpl. lia.
Defined.

(** C10.  [pay_bill] with no identifier returns at once: no request is
    made of the page, whatever the page and whatever was requested
    before. *)
Theorem pay_bill_no_accounts :
  forall env log, pay_bill [] env log = (Returned tt, log).
Proof. reflexivity. Qed.

(** ** Demo credentials *)

Import ApplicationConstants.

Lemma truthy_str_nonempty (repr : json -> string) v :
  (forall v, repr v <> "") -> truthy v = true -> str repr v <> "".
Proof.
  intros Hrepr Hv. destruct v; simpl; try apply Hrepr.
  simpl in Hv. intros ->. done.
Qed.

Lemma load_demo_credentials_fallback (repr : json -> string) file :
  has_credentials file = false ->
  load_demo_credentials repr file = Returned fallback.
Proof.
  unfold load_demo_credentials.
  destruct file as [| | |credentials]; try done.
  destruct credentials as [| | | | | |members]; try done.
  simpl. destruct (members !! "username") as [username|]; simpl; [|done].
  destruct (truthy username) eqn:Husername; simpl; [|by rewrite Husername].
  destruct (members !! "password") as [password|]; simpl; [|done].
  by destruct (truthy password).
Qed.

Lemma load_demo_credentials_found (repr : json -> string) members :
  has_credentials (Holds (JDict members)) = true ->
  exists username password,
    members !! "username" = Some username
    /\ members !! "password" = Some password
    /\ truthy username = true /\ truthy password = true
    /\ load_demo_credentials repr (Holds (JDict members))
       = Returned {[ "username" := str repr username;
                     "password" := str repr password ]}.
Proof.
  unfold load_demo_credentials. simpl.
  destruct (members !! "username") as [username|]; simpl; [|done].
  destruct (truthy username) eqn:Husername; simpl; [|done].
  destruct (members !! "password") as [password|]; simpl; [|done].
  destruct (truthy password) eqn:Hpassword; simpl; [|done].
  intros _. by exists username, password.
Qed.

(** C9.  Whatever is found at the path of the credentials file,
    [load_demo_credentials] returns, and returns a dict with a non-empty
    [username] and a non-empty [password]; these are [john] and [demo]
    when the file is missing, unreadable or malformed, or holds no dict
    with a true [username] and a true [password]. *)
Theorem load_demo_credentials_total :
  forall repr : json -> string,
    (forall v, repr v <> "") ->
    forall file,
      exists username password,
        load_demo_credentials repr file
        = Returned {[ "username" := username; "password" := password ]}
        /\ username <> "" /\ password <> ""
        /\ (has_credentials file = false ->
            username = "john" /\ password = "demo").
Proof.
  intros repr Hrepr file.
  destruct (has_credentials file) eqn:Hfile.
  - destruct file as [| | |credentials]; try done.
    destruct credentials as [| | | | | |members]; try done.
    destruct (load_demo_credentials_found repr members Hfile)
      as (username & password & _ & _ & Hu & Hp & ->).
    exists (str repr username), (str repr password).
    split; [done|].
    split; [by apply truthy_str_nonempty|].
    split; [by apply truthy_str_nonempty|done].
  - exists "john", "demo".
    rewrite load_demo_credentials_fallback by done. done.
Qed.

Lemma load_demo_credentials_total_witness :
  exists username password,
    load_demo_credentials (fun _ => "?")
      (Holds (JDict {[ "username" := JStr "mary"; "password" := JInt 7 ]}))
    = Returned {[ "username" := username; "password" := password ]}
    /\ username <> "" /\ password <> ""
    /\ (has_credentials
          (Holds (JDict {[ "username" := JStr "mary"; "password" := JInt 7 ]}))
        = false ->
        username = "john" /\ password = "demo").
Proof. apply (load_demo_credentials_total (fun _ => "?")). done. Defined.

(** * Further properties *)

(** ** The digit filter of [numeric_values] *)

Import Amounts.

Lemma replace_empty_cons old c s :
  replace old "" (String c s) =
    if Ascii.eqb c old then replace old "" s else String c (replace old "" s).
Proof. simpl. by destruct (Ascii.eqb c old). Qed.

Lemma digits_of_cons c s :
  digits_of (String c s) =
    if is_currency c || is_point c then digits_of s
    else String c (digits_of s).
Proof.
  unfold digits_of, strip_currency, is_currency, is_point.
  rewrite (replace_empty_cons "$").
  destruct (Ascii.eqb_spec c "$") as [->|Hdollar]; [done|].
  rewrite (replace_empty_cons ",").
  destruct (Ascii.eqb_spec c ",") as [->|Hcomma]; [done|].
  rewrite (replace_empty_cons ".").
  by destruct (Ascii.eqb_spec c ".").
Qed.

Lemma separator_not_digit c :
  is_currency c || is_point c = true -> char_isdigit c = false.
Proof.
  unfold is_currency, is_point.
  destruct (Ascii.eqb_spec c "$") as [->|_]; [done|].
  destruct (Ascii.eqb_spec c ",") as [->|_]; [done|].
  destruct (Ascii.eqb_spec c ".") as [->|_]; done.
Qed.

Lemma all_chars_digits_of value :
  all_chars char_isdigit (digits_of value) = all_chars amount_char value.
Proof.
  induction value as [|c s IH]; [done|].
  rewrite digits_of_cons. unfold amount_char at 1. cbn [all_chars].
  destruct (is_currency c || is_point c) eqn:Hsep.
  - rewrite IH. unfold amount_char.
    rewrite <- orb_assoc, Hsep. by rewrite orb_true_r.
  - cbn [all_chars]. rewrite IH. unfold amount_char.
    rewrite <- orb_assoc, Hsep. by rewrite orb_false_r.
Qed.

Lemma digits_of_nonempty value :
  all_chars amount_char value = true ->
  match digits_of value with EmptyString => false | _ => true end
  = any_char char_isdigit value.
Proof.
  induction value as [|c s IH]; [done|].
  cbn [all_chars any_char]. intros [Hc Hs]%andb_prop.
  rewrite digits_of_cons.
  destruct (is_currency c || is_point c) eqn:Hsep.
  - rewrite (separator_not_digit c Hsep). by apply IH.
  - unfold amount_char in Hc. rewrite <- orb_assoc, Hsep, orb_false_r in Hc.
    by rewrite Hc.
Qed.

Lemma looks_numeric_eq value :
  looks_numeric value
  = all_chars amount_char value && any_char char_isdigit value.
Proof.
  unfold looks_numeric. fold (digits_of value). unfold isdigit.
  destruct (all_chars amount_char value) eqn:Hall.
  - rewrite <- (digits_of_nonempty value Hall).
    rewrite <- all_chars_digits_of in Hall.
    by destruct (digits_of value).
  - rewrite <- all_chars_digits_of in Hall.
    destruct (digits_of value); [done|]. by rewrite Hall.
Qed.

(** X1.  A balance passes the filter of [numeric_values] exactly when
    it is made of digit characters, currency symbols, grouping
    separators and points, with one digit character at least; a balance
    with a minus sign never passes. *)
Theorem looks_numeric_shape :
  (forall value,
      looks_numeric value
      = all_chars amount_char value && any_char char_isdigit value)
  /\ (forall before after,
        looks_numeric (before +:+ "-" +:+ after) = false).
Proof.
  split; [apply looks_numeric_eq|].
  intros before after. rewrite looks_numeric_eq.
  assert (all_chars amount_char (before +:+ "-" +:+ after) = false) as ->;
    [|done].
  induction before as [|c s IH]; [done|].
  rewrite append_cons. cbn [all_chars]. by rewrite IH, andb_false_r.
Qed.

(** ** What [calculations] reads of a table *)

Lemma account_ids_first_cells (rows : table) :
  account_ids (take 2 <$> rows) = account_ids rows.
Proof.
  rewrite !account_ids_identifier_cell.
  induction rows as [|row rows IH]; [done|].
  cbn -[identifier_cell take]. rewrite IH.
  by destruct row as [|c0 [|c1 rest]].
Qed.

Lemma middle_values_first_cells (rows : table) :
  middle_values (take 2 <$> rows) = middle_values rows.
Proof.
  induction rows as [|row rows IH]; [done|].
  rewrite fmap_cons.
  change (take 2 row :: (take 2 <$> rows))
    with ([take 2 row] ++ (take 2 <$> rows)).
  change (row :: rows) with ([row] ++ rows).
  rewrite !middle_values_app, IH. f_equal.
  by destruct row as [|c0 [|c1 rest]].
Qed.

Lemma total_cell_first_cells (rows : table) :
  total_cell (take 2 <$> rows) = total_cell rows.
Proof.
  unfold total_cell. rewrite length_fmap.
  case_bool_decide; [|done].
  rewrite fmap_last. destruct (last rows) as [row|]; [|done].
  simpl. by destruct row as [|c0 [|c1 rest]].
Qed.

(** X2.  [calculations] reads the first two cells of each row and
    nothing else: cutting every row down to its first two cells changes
    neither the list returned nor the exception raised. *)
Theorem calculations_first_two_cells :
  forall rows : table,
    NewAccountPage.calculations (take 2 <$> rows)
    = NewAccountPage.calculations rows.
Proof.
  intros rows. destruct rows as [|row rows]; [done|].
  rewrite !calculations_nonempty by done.
  by rewrite middle_values_first_cells, total_cell_first_cells,
    account_ids_first_cells.
Qed.

(** X3.  When the second cell of the last row, of more than one, is the
    word Total or the placeholder, [calculations] raises [ValueError]
    whatever the other rows hold: such a table never validates. *)
Theorem calculations_placeholder_total :
  forall (rows : table) cell,
    total_cell rows = Some cell ->
    cell ∈ ["Total"; NBSP] ->
    NewAccountPage.calculations rows = Raised ValueError.
Proof.
  intros rows cell Hcell Hplaceholder.
  rewrite calculations_nonempty by (intros ->; by vm_compute in Hcell).
  rewrite Hcell, (parse_placeholder cell Hplaceholder).
  destruct (numeric_values _) as [numbers|e] eqn:Hnumbers; simpl; [done|].
  by apply numeric_values_raises in Hnumbers as ->.
Qed.

Lemma calculations_placeholder_total_witness :
  NewAccountPage.calculations [["13344"; "$100.00"]; ["Total"; NBSP]] = Raised ValueError.
Proof.
  apply (calculations_placeholder_total _ NBSP); [done|].
  apply elem_of_cons. right. apply elem_of_cons. by left.
Defined.

(** ** Which balances [float] accepts *)

Ltac each_ascii c :=
  destruct c as [[] [] [] [] [] [] [] []]; vm_compute; try done.

Lemma num_char_literal c :
  num_char c = true ->
  PyFloat.to_ascii_space c = c
  /\ PyFloat.is_underscore c = false
  /\ PyFloat.is_space c = false
  /\ Ascii.eqb c "-" = false
  /\ Ascii.eqb c "+" = false
  /\ Ascii.eqb (PyFloat.lower c) "e" = false
  /\ Ascii.eqb (PyFloat.lower c) "i" = false
  /\ Ascii.eqb (PyFloat.lower c) "n" = false.
Proof. each_ascii c. Qed.

Lemma num_char_cases c :
  num_char c = true ->
  is_ascii_digit c = true \/ is_point c = true
  \/ (is_ascii_digit c = false /\ is_point c = false).
Proof. destruct (is_ascii_digit c), (is_point c); auto. Qed.

Lemma take_sign_unsigned c cs :
  Ascii.eqb c "-" = false -> Ascii.eqb c "+" = false ->
  PyFloat.take_sign (c :: cs) = (false, c :: cs).
Proof. each_ascii c. Qed.

Lemma is_point_eq c : is_point c = true -> c = "."%char.
Proof. unfold is_point. by intros ->%Ascii.eqb_eq. Qed.

Lemma all_chars_Forall p s :
  all_chars p s = true <-> Forall (fun c => p c = true) (list_ascii_of_string s).
Proof.
  induction s as [|c s IH]; simpl.
  - split; [constructor|done].
  - rewrite andb_true_iff, Forall_cons. by rewrite IH.
Qed.

Lemma any_char_Exists p s :
  any_char p s = true <-> Exists (fun c => p c = true) (list_ascii_of_string s).
Proof.
  induction s as [|c s IH]; simpl.
  - split; [done|by intros ?%Exists_nil].
  - rewrite orb_true_iff, Exists_cons. by rewrite IH.
Qed.

Lemma count_char_filter p s :
  count_char p s
  = length (List.filter p (list_ascii_of_string s)).
Proof.
  induction s as [|c s IH]; [done|]. simpl. rewrite IH.
  by destruct (p c).
Qed.

Lemma num_chars_to_ascii_space cs :
  Forall (fun c => num_char c = true) cs ->
  map PyFloat.to_ascii_space cs = cs.
Proof.
  induction 1 as [|c cs Hc _ IH]; [done|]. simpl.
  rewrite IH. by destruct (num_char_literal c Hc) as [-> _].
Qed.

Lemma num_chars_drop_underscores cs prev :
  Forall (fun c => num_char c = true) cs ->
  PyFloat.is_underscore prev = false ->
  PyFloat.drop_underscores prev cs = Some cs.
Proof.
  intros Hcs. revert prev.
  induction Hcs as [|c cs Hc _ IH]; intros prev Hprev; simpl.
  - by rewrite Hprev.
  - destruct (num_char_literal c Hc) as (_ & Hunder & _).
    rewrite Hunder, Hprev. simpl. by rewrite IH.
Qed.

Lemma num_chars_lstrip cs :
  Forall (fun c => num_char c = true) cs -> PyFloat.lstrip cs = cs.
Proof.
  intros [|c cs' Hc _]; [done|]. simpl.
  destruct (num_char_literal c Hc) as (_ & _ & Hspace & _).
  by rewrite Hspace.
Qed.

Lemma num_chars_take_sign cs :
  Forall (fun c => num_char c = true) cs ->
  PyFloat.take_sign cs = (false, cs).
Proof.
  intros [|c cs' Hc _]; [done|].
  destruct (num_char_literal c Hc) as (_ & _ & _ & Hminus & Hplus & _).
  by apply take_sign_unsigned.
Qed.

Lemma num_chars_parse_special cs neg :
  Forall (fun c => num_char c = true) cs ->
  PyFloat.parse_special neg cs = None.
Proof.
  unfold PyFloat.parse_special.
  intros [|c cs' Hc _]; [done|].
  destruct (num_char_literal c Hc) as (_ & _ & _ & _ & _ & _ & Hi & Hn).
  cbn [map string_of_list_ascii String.eqb].
  by rewrite Hi, Hn.
Qed.

Lemma num_chars_strip cs :
  Forall (fun c => num_char c = true) cs -> PyFloat.strip cs = cs.
Proof.
  intros Hcs. unfold PyFloat.strip.
  rewrite (num_chars_lstrip cs Hcs).
  rewrite num_chars_lstrip by (by apply Forall_reverse).
  apply reverse_involutive.
Qed.

(** Under the digit filter, [float] is the decimal reading alone. *)
Lemma parse_num_chars s :
  all_chars num_char s = true ->
  PyFloat.parse s =
    match PyFloat.parse_decimal (list_ascii_of_string s) with
    | Some (m, e10) => Some (PyFloat.of_decimal false m e10)
    | None => None
    end.
Proof.
  intros Hs%all_chars_Forall. unfold PyFloat.parse.
  rewrite num_chars_to_ascii_space by done.
  rewrite num_chars_drop_underscores by done. simpl.
  rewrite num_chars_strip, num_chars_take_sign by done.
  by rewrite num_chars_parse_special.
Qed.

Lemma span_digits_spec cs ds rest :
  PyFloat.span_digits cs = (ds, rest) ->
  cs = ds ++ rest /\ digits ds /\ no_digit_ahead rest.
Proof.
  revert ds. induction cs as [|c cs IH]; intros ds; simpl.
  - intros [= <- <-]. split; [done|]. split; [constructor|done].
  - destruct (is_ascii_digit c) eqn:Hc.
    + destruct (PyFloat.span_digits cs) as [ds' rest'].
      intros [= <- <-]. destruct (IH ds' eq_refl) as (-> & Hds & Hrest).
      split; [done|]. split; [by constructor|done].
    + intros [= <- <-]. split; [done|]. split; [constructor|done].
Qed.

Lemma span_digits_app ds rest :
  digits ds -> no_digit_ahead rest ->
  PyFloat.span_digits (ds ++ rest) = (ds, rest).
Proof.
  intros Hds Hrest. induction Hds as [|c ds Hc _ IH]; simpl.
  - destruct rest as [|c rest]; [done|]. simpl in *. by rewrite Hrest.
  - by rewrite Hc, IH.
Qed.

Lemma fraction_absent c r :
  is_point c = false ->
  match c :: r with
  | "."%char :: r' => PyFloat.span_digits r'
  | _ => ([], c :: r)
  end = ([], c :: r).
Proof.
  intros Hc.
  destruct c as [[] [] [] [] [] [] [] []]; try reflexivity.
  by vm_compute in Hc.
Qed.

Lemma parse_decimal_plain cs ip fp :
  plain_split cs ip fp ->
  PyFloat.parse_decimal cs
  = Some (PyFloat.digits_value (ip ++ fp), (- Z.of_nat (length fp))%Z).
Proof.
  intros (Hip & Hfp & Hsome & Hcs). unfold PyFloat.parse_decimal.
  destruct Hcs as [[-> ->]| ->].
  - rewrite <- (app_nil_r ip) at 1. rewrite span_digits_app by done.
    rewrite app_nil_r in *. by destruct ip.
  - rewrite span_digits_app by done.
    rewrite <- (app_nil_r fp) at 1. rewrite span_digits_app by done.
    destruct (ip ++ fp) eqn:Hds; [done|]. by rewrite <- Hds.
Qed.

Lemma parse_decimal_inv cs :
  Forall (fun c => num_char c = true) cs ->
  is_Some (PyFloat.parse_decimal cs) ->
  exists ip fp, plain_split cs ip fp.
Proof.
  intros Hcs. unfold PyFloat.parse_decimal.
  destruct (PyFloat.span_digits cs) as [ip r1] eqn:Hspan.
  apply span_digits_spec in Hspan as (-> & Hip & Hr1).
  apply Forall_app in Hcs as [_ Hr1chars].
  destruct r1 as [|c r].
  - rewrite !app_nil_r. destruct ip as [|d ds]; [by intros [? ?]|].
    intros _. exists (d :: ds), [].
    split; [done|]. split; [constructor|]. split; [done|by left].
  - apply Forall_cons in Hr1chars as [Hc Hr]. simpl in Hr1.
    destruct (num_char_literal c Hc) as (_ & _ & _ & _ & _ & He & _).
    destruct (is_point c) eqn:Hpoint.
    + apply is_point_eq in Hpoint as ->.
      destruct (PyFloat.span_digits r) as [fp r2] eqn:Hspan.
      apply span_digits_spec in Hspan as (-> & Hfp & Hr2).
      apply Forall_app in Hr as [_ Hr2chars].
      destruct (ip ++ fp) eqn:Hds; [by intros [? ?]|]. rewrite <- Hds.
      destruct r2 as [|c2 r2].
      * intros _. exists ip, fp. rewrite app_nil_r.
        split; [done|]. split; [done|]. split; [by rewrite Hds|by right].
      * apply Forall_cons in Hr2chars as [Hc2 _]. simpl.
        destruct (num_char_literal c2 Hc2) as (_ & _ & _ & _ & _ & -> & _).
        by intros [? ?].
    + rewrite (fraction_absent c r Hpoint).
      destruct (ip ++ []); [by intros [? ?]|].
      simpl. rewrite He. by intros [? ?].
Qed.

Lemma digit_not_point c : is_ascii_digit c = true -> is_point c = false.
Proof. unfold is_point. each_ascii c. Qed.

Lemma digits_no_point ds : digits ds -> List.filter is_point ds = [].
Proof.
  induction 1 as [|c ds Hc _ IH]; [done|]. simpl.
  by rewrite (digit_not_point c Hc).
Qed.

Lemma no_point_digits cs :
  Forall (fun c => is_ascii_digit c || is_point c = true) cs ->
  List.filter is_point cs = [] -> digits cs.
Proof.
  induction 1 as [|c cs Hc _ IH]; [constructor|]. simpl.
  destruct (is_point c) eqn:Hpoint; [done|].
  rewrite orb_false_r in Hc. intros Hcs. constructor; [done|by apply IH].
Qed.

Lemma plain_list_split cs :
  Forall (fun c => is_ascii_digit c || is_point c = true) cs ->
  Exists (fun c => is_ascii_digit c = true) cs ->
  length (List.filter is_point cs) <= 1 ->
  exists ip fp, plain_split cs ip fp.
Proof.
  intros Hcs Hdigit Hpoints.
  destruct (PyFloat.span_digits cs) as [ip r1] eqn:Hspan.
  apply span_digits_spec in Hspan as (-> & Hip & Hr1).
  apply Forall_app in Hcs as [_ Hr1chars].
  rewrite List.filter_app, length_app, (digits_no_point ip Hip) in Hpoints.
  destruct r1 as [|c r].
  - exists ip, []. rewrite app_nil_r in *.
    split; [done|]. split; [constructor|]. split; [|by left].
    rewrite app_nil_r. intros ->. by apply Exists_nil in Hdigit.
  - apply Forall_cons in Hr1chars as [Hc Hr]. simpl in Hr1.
    rewrite Hr1 in Hc. simpl in Hc, Hpoints. rewrite Hc in Hpoints.
    apply is_point_eq in Hc as ->.
    assert (digits r) as Hfp.
    { apply no_point_digits; [done|].
      destruct (List.filter is_point r); [done|simpl in Hpoints; lia]. }
    exists ip, r. split; [done|]. split; [done|]. split; [|by right].
    intros [-> ->]%app_eq_nil.
    apply Exists_cons in Hdigit as [Hdigit|Hdigit]; [done|].
    by apply Exists_nil in Hdigit.
Qed.

Lemma plain_split_list cs ip fp :
  plain_split cs ip fp ->
  Forall (fun c => is_ascii_digit c || is_point c = true) cs
  /\ Exists (fun c => is_ascii_digit c = true) cs
  /\ length (List.filter is_point cs) <= 1.
Proof.
  assert (forall ds, digits ds ->
            Forall (fun c => is_ascii_digit c || is_point c = true) ds) as Hweak.
  { intros ds Hds. eapply Forall_impl; [done|]. by intros c ->. }
  assert (forall ds, digits ds -> ds <> [] ->
            Exists (fun c => is_ascii_digit c = true) ds) as Hsome.
  { intros ds [|c ds' Hc _] Hne; [done|]. by apply Exists_cons_hd. }
  intros (Hip & Hfp & Hne & [[-> ->]| ->]).
  - rewrite app_nil_r in Hne.
    split; [by apply Hweak|]. split; [by apply Hsome|].
    rewrite digits_no_point by done. simpl. lia.
  - split; [|split].
    + apply Forall_app. split; [by apply Hweak|].
      constructor; [done|by apply Hweak].
    + apply Exists_app.
      destruct ip as [|d ip]; [right|left; by apply Hsome].
      apply Exists_cons_tl, Hsome; [done|]. by intros ->.
    + rewrite List.filter_app, length_app. simpl.
      rewrite !digits_no_point by done. simpl. lia.
Qed.

Lemma plain_number_split s :
  plain_number s = true <->
  exists ip fp, plain_split (list_ascii_of_string s) ip fp.
Proof.
  unfold plain_number.
  rewrite !andb_true_iff, bool_decide_eq_true, count_char_filter,
    all_chars_Forall, any_char_Exists.
  split.
  - intros [[Hcs Hdigit] Hpoints]. by apply plain_list_split.
  - intros (ip & fp & Hsplit).
    by destruct (plain_split_list _ _ _ Hsplit) as (? & ? & ?).
Qed.

Lemma strip_currency_cons c s :
  strip_currency (String c s) =
    if is_currency c then strip_currency s else String c (strip_currency s).
Proof.
  unfold strip_currency, is_currency.
  rewrite (replace_empty_cons "$").
  destruct (Ascii.eqb_spec c "$") as [->|_]; [done|].
  rewrite (replace_empty_cons ","). simpl.
  by destruct (Ascii.eqb c ",").
Qed.

Lemma all_chars_ext p q s :
  (forall c, p c = q c) -> all_chars p s = all_chars q s.
Proof.
  intros Hpq. induction s as [|c s IH]; [done|]. simpl. by rewrite Hpq, IH.
Qed.

Lemma all_chars_strip_currency p value :
  all_chars p (strip_currency value)
  = all_chars (fun c => is_currency c || p c) value.
Proof.
  induction value as [|c s IH]; [done|].
  rewrite strip_currency_cons. cbn [all_chars].
  destruct (is_currency c); simpl; by rewrite IH.
Qed.

Lemma any_char_strip_currency p value :
  (forall c, is_currency c = true -> p c = false) ->
  any_char p (strip_currency value) = any_char p value.
Proof.
  intros Hp. induction value as [|c s IH]; [done|].
  rewrite strip_currency_cons. cbn [any_char].
  destruct (is_currency c) eqn:Hc; simpl; rewrite IH; [|done].
  by rewrite (Hp c Hc).
Qed.

Lemma count_char_strip_currency p value :
  (forall c, is_currency c = true -> p c = false) ->
  count_char p (strip_currency value) = count_char p value.
Proof.
  intros Hp. induction value as [|c s IH]; [done|].
  rewrite strip_currency_cons. cbn [count_char].
  destruct (is_currency c) eqn:Hc; simpl; rewrite IH; [|done].
  by rewrite (Hp c Hc).
Qed.

Lemma currency_not_digit c : is_currency c = true -> is_ascii_digit c = false.
Proof. unfold is_currency. each_ascii c. Qed.

Lemma currency_not_point c : is_currency c = true -> is_point c = false.
Proof. unfold is_currency, is_point. each_ascii c. Qed.

Lemma plain_amount_number value :
  plain_amount value = plain_number (strip_currency value).
Proof.
  unfold plain_amount, plain_number.
  rewrite all_chars_strip_currency.
  rewrite any_char_strip_currency by apply currency_not_digit.
  rewrite count_char_strip_currency by apply currency_not_point.
  f_equal. f_equal. apply all_chars_ext. intros c.
  by destruct (is_ascii_digit c), (is_currency c), (is_point c).
Qed.

Lemma looks_numeric_num_chars value :
  looks_numeric value = true ->
  all_chars num_char (strip_currency value) = true.
Proof.
  rewrite looks_numeric_eq. intros [Hall _]%andb_prop.
  rewrite all_chars_strip_currency, <- Hall.
  apply all_chars_ext. intros c. unfold amount_char, num_char.
  by destruct (char_isdigit c), (is_currency c), (is_point c).
Qed.

Lemma parse_filtered value :
  looks_numeric value = true ->
  is_Some (PyFloat.parse (strip_currency value))
  <-> plain_amount value = true.
Proof.
  intros Hvalue%looks_numeric_num_chars.
  rewrite (parse_num_chars _ Hvalue), plain_amount_number, plain_number_split.
  apply all_chars_Forall in Hvalue.
  split.
  - intros Hparse. apply parse_decimal_inv; [done|].
    destruct (PyFloat.parse_decimal _) as [[m e]|]; [done|].
    by destruct Hparse.
  - intros (ip & fp & Hsplit).
    by rewrite (parse_decimal_plain _ ip fp Hsplit).
Qed.

(** X4.  Among the texts of code points U+0000 to U+00FF, a balance
    that passes the digit filter converts exactly when it is a plain
    amount: digits [0-9] with at most one point, besides the currency
    symbols and grouping separators.  A second point or a superscript
    digit (U+00B2, U+00B3, U+00B9) makes [float] raise.  Decimal digits
    beyond U+00FF, which [float] accepts, are outside the texts of this
    development. *)
Theorem filtered_balance_converts :
  forall value,
    looks_numeric value = true ->
    (is_Some (PyFloat.parse (strip_currency value))
     <-> plain_amount value = true).
Proof. apply parse_filtered. Qed.

Lemma filtered_balance_converts_witness :
  is_Some (PyFloat.parse (strip_currency "$1,234.50"))
  <-> plain_amount "$1,234.50" = true.
Proof. apply filtered_balance_converts. by vm_compute. Defined.

Lemma numeric_values_cases values :
  (numeric_values values = Raised ValueError
   <-> Exists stops_conversion values)
  /\ (forall numbers,
        numeric_values values = Returned numbers ->
        length numbers = length (List.filter looks_numeric values)).
Proof.
  induction values as [|value values [IHraise IHreturn]].
  - split; [|by intros ? [= <-]].
    split; [done|by intros ?%Exists_nil].
  - simpl. destruct (looks_numeric value) eqn:Hfilter.
    + pose proof (parse_filtered value Hfilter) as Hplain.
      destruct (PyFloat.parse (strip_currency value)) as [x|]; simpl.
      * assert (plain_amount value = true) as Hvalue by by apply Hplain.
        destruct (numeric_values values) as [numbers|e] eqn:Hrest; simpl.
        -- split.
           ++ split; [done|]. intros [[_ Hbad]|Hbad]%Exists_cons;
                [congruence|]. by apply IHraise in Hbad.
           ++ intros ? [= <-]. simpl. by rewrite (IHreturn numbers).
        -- split; [|done]. split.
           ++ intros [= ->]. apply Exists_cons_tl. by apply IHraise.
           ++ intros _. f_equal.
              by apply (numeric_values_raises values e).
      * split; [|done]. split; [|done]. intros _.
        apply Exists_cons_hd. split; [done|].
        destruct (plain_amount value); [|done].
        by destruct (proj2 Hplain eq_refl).
    + split; [|done].
      rewrite IHraise. split; [by apply Exists_cons_tl|].
      intros [[Hbad _]|Hbad]%Exists_cons; [congruence|done].
Qed.

(** X5.  Over texts of code points U+0000 to U+00FF, the comprehension
    [numeric_values] raises [ValueError] exactly when one of the values
    passes the digit filter without being a plain amount; otherwise it
    returns one number for each value that passes the filter. *)
Theorem numeric_values_outcome :
  forall values,
    (numeric_values values = Raised ValueError
     <-> Exists stops_conversion values)
    /\ (forall numbers,
          numeric_values values = Returned numbers ->
          length numbers = length (List.filter looks_numeric values)).
Proof. apply numeric_values_cases. Qed.


(** X6.  Over tables of texts of code points U+0000 to U+00FF,
    [calculations] raises [ValueError] exactly when one of the balances
    it converts passes the digit filter without being a plain amount, or
    when the total cell it reads is not accepted by [float]. *)
Theorem calculations_value_error :
  forall rows : table,
    NewAccountPage.calculations rows = Raised ValueError
    <-> (Exists stops_conversion (removelast (middle_values rows))
         \/ exists cell,
              total_cell rows = Some cell
              /\ PyFloat.parse (strip_currency cell) = None).
Proof.
  intros rows. destruct rows as [|row rows].
  - split; [done|]. intros [Hbad%Exists_nil|(cell & Hcell & _)]; done.
  - rewrite calculations_nonempty by done.
    pose proof (proj1 (numeric_values_cases
                         (removelast (middle_values (row :: rows))))) as Hraise.
    destruct (numeric_values _) as [numbers|e] eqn:Hnumbers; simpl.
    + destruct (total_cell _) as [cell|] eqn:Hcell.
      * destruct (PyFloat.parse (strip_currency cell)) as [total|] eqn:Hparse;
          simpl.
        -- split.
           ++ by destruct (within_tolerance _ _).
           ++ intros [Hbad|(cell' & [= <-] & Hnone)]; [|congruence].
              by apply Hraise in Hbad.
        -- split; [|done]. intros _. right. by exists cell.
      * split; [done|].
        intros [Hbad|(cell & [=] & _)]. by apply Hraise in Hbad.
    + apply numeric_values_raises in Hnumbers as Hexn. subst e.
      split; [|done]. intros _. left. by apply Hraise.
Qed.

(** ** The identifier read from the last link *)

Lemma partition_parts sep s a b :
  partition sep s = Some (a, b) -> s = a +:+ sep +:+ b.
Proof.
  revert a. induction s as [|c s IH]; intros a.
  - simpl. destruct (starts_with sep "") eqn:Hsep; [|done].
    intros [= <- <-]. by destruct sep.
  - rewrite partition_cons.
    destruct (starts_with sep (String c s)) eqn:Hsep.
    + apply starts_with_prefix in Hsep as [t Ht]. intros [= <- <-].
      rewrite Ht. by rewrite drop_append.
    + destruct (partition sep s) as [[a' b']|]; [|done].
      intros [= <- <-]. by rewrite append_cons, <- (IH a').
Qed.

Lemma starts_with_append p s t :
  starts_with p s = true -> starts_with p (s +:+ t) = true.
Proof.
  revert s. induction p as [|a p IH]; intros s; [done|].
  destruct s as [|b s]; [done|]. rewrite append_cons. cbn [starts_with].
  intros [-> Hp]%andb_prop. by rewrite IH.
Qed.

Lemma starts_with_refl p : starts_with p p = true.
Proof.
  induction p as [|a p IH]; [done|]. cbn [starts_with].
  by rewrite Ascii.eqb_refl, IH.
Qed.

Lemma contains_append_l x s t :
  contains x s = true -> contains x (s +:+ t) = true.
Proof.
  induction s as [|c s IH].
  - simpl. rewrite orb_false_r. intros Hx. destruct x; [by destruct t|done].
  - rewrite append_cons, !contains_cons.
    intros [Hx|Hx]%orb_prop.
    + apply (starts_with_append _ _ t) in Hx.
      rewrite append_cons in Hx. by rewrite Hx.
    + by rewrite IH, orb_true_r.
Qed.

Lemma contains_append_r x s t :
  contains x t = true -> contains x (s +:+ t) = true.
Proof.
  intros Hx. induction s as [|c s IH]; [done|].
  by rewrite append_cons, contains_cons, IH, orb_true_r.
Qed.

Lemma contains_refl x : contains x x = true.
Proof. destruct x; [done|]. by rewrite contains_cons, starts_with_refl. Qed.

(** The text before the first cut holds no separator. *)
Lemma partition_before sep s a b :
  sep <> "" -> partition sep s = Some (a, b) -> contains sep a = false.
Proof.
  intros Hsep. revert a. induction s as [|c s IH]; intros a.
  - simpl. destruct (starts_with sep ""); [|done].
    intros [= <- <-]. by destruct sep.
  - rewrite partition_cons.
    destruct (starts_with sep (String c s)) eqn:Hc.
    + intros [= <- <-]. by destruct sep.
    + destruct (partition sep s) as [[a' b']|] eqn:Hs; [|done].
      intros [= <- <-]. rewrite contains_cons, (IH a') by done.
      rewrite orb_false_r.
      destruct (starts_with sep (String c a')) eqn:Ha; [|done].
      apply (starts_with_append _ _ (sep +:+ b')) in Ha.
      rewrite append_cons, <- (partition_parts _ _ _ _ Hs) in Ha.
      congruence.
Qed.

Lemma partition_none sep s :
  partition sep s = None -> contains sep s = false.
Proof.
  intros Hs. destruct (contains sep s) eqn:Hin; [|done].
  apply partition_found in Hin as [? Hfound]. congruence.
Qed.

(** X7.  The identifier [create_savings_account] returns holds no
    ["id="] and is a piece of the last link. *)
Theorem last_account_id_piece :
  forall links id,
    last_account_id links = Returned id ->
    contains "id=" id = false
    /\ exists link, last links = Some link /\ contains id link = true.
Proof.
  intros links id. destruct (last links) as [link|] eqn:Hlast.
  - rewrite (last_account_id_eq links link Hlast). intros [= <-].
    destruct (partition "id=" link) as [[before after]|] eqn:Hlink.
    + apply partition_parts in Hlink as Hparts.
      destruct (partition "id=" after) as [[id rest]|] eqn:Hafter.
      * split; [by apply (partition_before "id=" after id rest)|].
        exists link. split; [done|].
        apply partition_parts in Hafter. rewrite Hparts, Hafter.
        do 2 apply contains_append_r.
        apply contains_append_l, contains_refl.
      * split; [by apply partition_none|].
        exists link. split; [done|]. rewrite Hparts.
        do 2 apply contains_append_r. apply contains_refl.
    + split; [done|]. exists link. split; [done|]. by destruct link.
  - unfold last_account_id. by rewrite Hlast.
Qed.

Lemma last_account_id_piece_witness :
  contains "id=" "13455" = false
  /\ exists link,
       last ["activity.htm?id=13455"] = Some link
       /\ contains "13455" link = true.
Proof. by apply (last_account_id_piece ["activity.htm?id=13455"] "13455"). Defined.

(** ** What the methods ask of the page *)

Import Trace.

(** One request: either it raises, or it answers. *)
Ltac answer :=
  match goal with
  | |- context [?env ?T ?log ?r] =>
      is_var env;
      let a := fresh "a" in
      destruct (env T log r) as [a|?] eqn:?;
      [ match T with
        | unit => destruct a
        | bool => destruct a
        | _ => idtac
        end |];
      cbn -[NewAccountPage.calculations NewAccountPage.last_account_id]
  end.

Ltac run_page :=
  unfold mbind, page_bind, bind, perform, lift, ret, try_except;
  cbn -[NewAccountPage.calculations NewAccountPage.last_account_id].

(** X8.  Whatever the page answers, [create_savings_account] makes its
    eight requests in their fixed order, each only after the one before
    it was answered, and stops at the first that raises, with the
    exception of that request.  When all eight are answered, the result
    is what the last link of the fetched list gives. *)
Theorem create_savings_account_script :
  forall env log,
    snd (create_savings_account env log)
    = log ++ performed env log create_script
    /\ match first_raised env log create_script with
       | Some e => fst (create_savings_account env log) = Raised e
       | None =>
           performed env log create_script = create_script
           /\ exists activity_links,
                env _ (log ++ take 7 create_script)
                  (EvaluateHrefs activity_links_selector)
                = Returned activity_links
                /\ fst (create_savings_account env log)
                   = NewAccountPage.last_account_id activity_links
       end.
Proof.
  intros env log.
  unfold create_savings_account, create_script. run_page.
  unfold raises. cbn [projT1 projT2 record].
  repeat answer; rewrite <- ?app_assoc; cbn; try done.
  all: split; [done|]; split; [done|].
  all: match goal with
       | H : _ _ ((_ ++ _) ++ _) (EvaluateHrefs _) = Returned ?links |- _ =>
           exists links; split; [|done];
           rewrite <- !app_assoc in H; simpl in H; congruence
       end.
Qed.

Lemma is_select_record selector value :
  is_select selector value (record (SelectOption selector value)) = true.
Proof. unfold is_select. simpl. by rewrite !String.eqb_refl. Qed.

Lemma existsb_here {A} (p : A -> bool) x before after :
  p x = true -> existsb p (before ++ x :: after) = true.
Proof.
  intros Hx. rewrite existsb_app. simpl. by rewrite Hx, orb_true_r.
Qed.

(** X9.  Whatever the page answers, [pay_bill] only adds requests, and
    it never both takes the error screenshot and sends the payment; when
    it clicks Send Payment, it has entered the phone number, selected the
    first identifier of its list as the source account and filled in the
    amount 500. *)
Theorem pay_bill_payment :
  forall env log account_ids,
    exists new,
      snd (pay_bill account_ids env log) = log ++ new
      /\ (existsb is_screenshot new = true ->
          existsb (is_click (attr "input" "value" "Send Payment")) new = false)
      /\ (existsb (is_click (attr "input" "value" "Send Payment")) new = true ->
          exists from_account rest,
            account_ids = from_account :: rest
            /\ existsb (is_select (attr "select" "name" "fromAccountId")
                          from_account) new = true
            /\ existsb (is_fill (attr "input" "name" "amount") "500") new = true
            /\ (existsb (is_fill (attr "input" "name" "phoneNumber")
                           "1234567890") new
                || existsb (is_keyboard_type "1234567890") new) = true).
Proof.
  intros env log [|from_account rest].
  - exists []. rewrite app_nil_r. by split.
  - unfold pay_bill, fill_phone. run_page.
    repeat answer; rewrite <- ?app_assoc; cbn;
      (eexists; split; [reflexivity|]; split;
       [ intros Hshot; vm_compute in Hshot; try done; by vm_compute
       | intros Hsent;
         first
           [ by vm_compute in Hsent
           | exists from_account, rest; split; [done|]; split;
             [ match goal with
               | |- existsb _ ?new = true =>
                   match new with
                   | context [record (SelectOption ?s from_account) :: ?after] =>
                       match new with
                       | ?all =>
                           let before := eval cbn in
                             (take (length all - S (length after)) all) in
                           change all with
                             (before ++ record (SelectOption s from_account)
                                :: after)
                       end
                   end
               end;
               apply existsb_here, is_select_record
             | by vm_compute ] ] ]).
Qed.


(** ** The user name of a registration *)

Import ApplicationConstants Registration.

Lemma four_digits n :
  (0 <= n < 9000)%Z -> String.length (pretty (1000 + n)%Z) = 4.
Proof.
  intros Hn.
  assert (forallb (fun k => Nat.eqb (String.length (pretty (1000 + k)%Z)) 4)
            (seqZ 0 9000) = true) as Hall by by vm_compute.
  rewrite forallb_forall in Hall.
  apply Nat.eqb_eq, Hall, list_elem_of_In, elem_of_seqZ. lia.
Qed.

Lemma word_of_number h :
  ((h `mod` 9000) `mod` 6 = h `mod` 6)%Z.
Proof.
  apply Z.mod_mod_divide. by exists 1500%Z.
Qed.

(** X11.  The user name [_generate_random_username] builds from the hash
    [h] is the word of index [(h % 9000) % 6] of its list, the number
    [1000 + h % 9000], which has four digits, and [@gmail.com]: the
    index is always in range, and the word is decided by the number, so
    that two hashes with the same remainder modulo 9000 give the same
    user name and no more than 9000 user names can come out. *)
Theorem generate_random_username_shape :
  forall h : Z,
    (0 <= h `mod` 9000 < 9000)%Z
    /\ String.length (pretty (1000 + h `mod` 9000)%Z) = 4
    /\ (exists word : string,
          words !! Z.to_nat ((h `mod` 9000) `mod` 6) = Some word
          /\ generate_random_username h
             = Returned (word +:+ pretty (1000 + h `mod` 9000)%Z
                         +:+ "@gmail.com"))
    /\ (forall h' : Z,
          (h' `mod` 9000 = h `mod` 9000)%Z ->
          generate_random_username h' = generate_random_username h).
Proof.
  intros h.
  assert (0 <= h `mod` 9000 < 9000)%Z as Hn by (apply Z.mod_pos_bound; lia).
  assert (0 <= h `mod` 6 < 6)%Z as Hword by (apply Z.mod_pos_bound; lia).
  split; [done|]. split; [by apply four_digits|]. split.
  - destruct (words !! Z.to_nat (h `mod` 6)) as [word|] eqn:Hlookup.
    + exists word. split; [by rewrite word_of_number|].
      unfold generate_random_username.
      change (Z.of_nat (length words)) with 6%Z. by rewrite Hlookup.
    + apply lookup_ge_None in Hlookup. simpl in Hlookup. lia.
  - intros h' Hsame. unfold generate_random_username.
    change (Z.of_nat (length words)) with 6%Z.
    by rewrite <- (word_of_number h'), <- (word_of_number h), Hsame.
Qed.

(** ** Saving and reading the credentials *)

Lemma saved_lookup (username password : string) :
  ({[ "username" := JStr username; "password" := JStr password ]}
     : gmap string json) !! "username" = Some (JStr username)
  /\ ({[ "username" := JStr username; "password" := JStr password ]}
        : gmap string json) !! "password" = Some (JStr password).
Proof.
  split.
  - apply lookup_insert_eq.
  - rewrite lookup_insert_ne by done. apply lookup_singleton_eq.
Qed.

Lemma generate_random_username_nonempty h username :
  generate_random_username h = Returned username -> username <> "".
Proof.
  unfold generate_random_username.
  destruct (words !! _) as [word|]; simpl; [|done].
  intros [= <-] Hempty. apply (f_equal String.length) in Hempty.
  rewrite !length_append in Hempty. simpl in Hempty. lia.
Qed.

(** X12.  When [_save_credentials] succeeds, the [credentials] fixtures
    read back the pair as saved, and [load_demo_credentials] returns the
    saved pair unless the user name or the password is empty, in which
    case it returns john and demo.  The pair [register_user] saves, a
    generated user name and the default password, is read back as it
    is. *)
Theorem save_then_load :
  forall (repr : json -> string) writable username password file,
    match save_credentials writable username password file with
    | (Returned _, file') =>
        credentials_fixture file'
        = Returned (JDict {[ "username" := JStr username;
                             "password" := JStr password ]})
        /\ load_demo_credentials repr file'
           = Returned (if String.eqb username "" || String.eqb password ""
                       then fallback
                       else {[ "username" := username;
                               "password" := password ]})
        /\ (forall h,
              generate_random_username h = Returned username ->
              password = DEFAULT_PASSWORD ->
              load_demo_credentials repr file'
              = Returned {[ "username" := username;
                            "password" := DEFAULT_PASSWORD ]})
    | (Raised _, _) => True
    end.
Proof.
  intros repr writable username password file.
  destruct writable; simpl; [|done].
  destruct (saved_lookup username password) as [Hu Hp].
  assert (load_demo_credentials repr
            (Holds (JDict {[ "username" := JStr username;
                             "password" := JStr password ]}))
          = Returned (if String.eqb username "" || String.eqb password ""
                      then fallback
                      else {[ "username" := username;
                              "password" := password ]})) as Hload.
  { destruct (String.eqb username "" || String.eqb password "") eqn:Hempty.
    - apply load_demo_credentials_fallback. simpl. rewrite Hu, Hp. simpl.
      by destruct (String.eqb username ""), (String.eqb password "").
    - destruct (load_demo_credentials_found repr
                  {[ "username" := JStr username; "password" := JStr password ]})
        as (u & p & Hu' & Hp' & _ & _ & ->).
      + simpl. rewrite Hu, Hp. simpl.
        by destruct (String.eqb username ""), (String.eqb password "").
      + rewrite Hu in Hu'. rewrite Hp in Hp'. by simplify_eq. }
  split; [done|]. split; [done|].
  intros h Hname ->. rewrite Hload.
  apply generate_random_username_nonempty in Hname.
  destruct (String.eqb_spec username ""); [done|]. done.
Qed.

(** ** The session cookie of the API tests *)

Import SessionCookie.

Lemma no_match_in_items cookies :
  List.find (contains "JSESSIONID=") (items cookies) = None.
Proof.
  unfold items. induction (list_ascii_of_string cookies) as [|c cs IH];
    [done|].
  rewrite fmap_cons. cbn [List.find].
  assert (contains "JSESSIONID=" (String c "") = false) as ->; [|done].
  rewrite contains_cons. cbn [starts_with contains].
  by rewrite !andb_false_r.
Qed.

(** X13.  The [session_id] fixture never returns a session identifier:
    the value of the [set-cookie] header is a [str], the loop runs over
    its characters, and no character holds ["JSESSIONID="].  It raises
    with the message No cookies found for a missing or empty header and
    JSESSIONID not found in cookies otherwise. *)
Theorem session_id_never_returns :
  forall cookies : option string,
    session_id cookies =
      Raised (Exception
                match cookies with
                | None | Some EmptyString => "No cookies found"
                | Some _ => "JSESSIONID not found in cookies"
                end).
Proof.
  intros [[|c cookies]|]; [done| |done].
  unfold session_id, jsession_match.
  by rewrite no_match_in_items.
Qed.

(** ** Configuration *)

Import Config.

Lemma init_returns environ cfg :
  init environ = Returned cfg ->
  exists default_timeout short_timeout long_timeout network_idle,
    getenv_int environ "DEFAULT_TIMEOUT" "30000" = Returned default_timeout
    /\ getenv_int environ "SHORT_TIMEOUT" "5000" = Returned short_timeout
    /\ getenv_int environ "LONG_TIMEOUT" "60000" = Returned long_timeout
    /\ getenv_int environ "NETWORK_IDLE_TIMEOUT" "1000" = Returned network_idle
    /\ timeouts cfg = {[ "default" := default_timeout;
                         "short" := short_timeout;
                         "long" := long_timeout;
                         "network_idle" := network_idle ]}.
Proof.
  unfold init.
  repeat (match goal with
          | |- context [getenv_int ?e ?v ?d] =>
              destruct (getenv_int e v d) eqn:?; simpl; [|done]
          end).
  intros [= <-]. by eexists _, _, _, _.
Qed.

(** X14.  On a configuration that [Config()] has built, [get_timeout]
    never raises: it returns the entry of the four kinds default, short,
    long and network_idle, and the default entry for any other kind; the
    default entry is 30000 when [DEFAULT_TIMEOUT] is not set. *)
Theorem get_timeout_total :
  forall environ cfg timeout_type,
    init environ = Returned cfg ->
    exists default_timeout,
      timeouts cfg !! "default" = Some default_timeout
      /\ dom (timeouts cfg)
         = ({[ "default"; "short"; "long"; "network_idle" ]} : gset string)
      /\ get_timeout cfg timeout_type
         = Returned (default default_timeout (timeouts cfg !! timeout_type))
      /\ (timeout_type ∉ dom (timeouts cfg) ->
          get_timeout cfg timeout_type = Returned default_timeout)
      /\ (environ !! "DEFAULT_TIMEOUT" = None -> default_timeout = 30000%Z).
Proof.
  intros environ cfg timeout_type
    (d & s & l & n & Hd & _ & _ & _ & Htimeouts)%init_returns.
  exists d. unfold get_timeout. rewrite Htimeouts.
  assert (({[ "default" := d; "short" := s; "long" := l;
              "network_idle" := n ]} : gmap string Z) !! "default" = Some d)
    as Hdefault by apply lookup_insert_eq.
  rewrite Hdefault. simpl.
  split; [done|]. split; [|split; [done|split]].
  - rewrite !dom_insert_L, dom_singleton_L. set_solver.
  - intros Hkind%not_elem_of_dom. by rewrite Hkind.
  - intros Hunset. unfold getenv_int, getenv in Hd. rewrite Hunset in Hd.
    vm_compute in Hd. by simplify_eq.
Qed.

Lemma get_timeout_total_witness :
  exists default_timeout,
    timeouts unset_config !! "default" = Some default_timeout
    /\ get_timeout unset_config "medium" = Returned default_timeout
    /\ default_timeout = 30000%Z.
Proof.
  assert (init ∅ = Returned unset_config) as Hinit by (by vm_compute).
  destruct (get_timeout_total ∅ unset_config "medium" Hinit)
    as (d & Hd & _ & _ & Hother & Hunset).
  exists d. split; [exact Hd|]. split; [|by apply Hunset].
  apply Hother. by vm_compute.
Defined.

Lemma getenv_int_raises environ variable unset e :
  getenv_int environ variable unset = Raised e -> e = ValueError.
Proof.
  unfold getenv_int. destruct (PyInt.parse _); simpl; [done|].
  by intros [= <-].
Qed.

(** X15.  [Config()] raises exactly when one of the ten variables it
    converts with [int] is set to a text that [int] rejects, the
    defaults being accepted; what it raises is [ValueError]. *)
Theorem init_outcome :
  forall environ,
    ((exists e, init environ = Raised e)
     <-> Exists (fun variable =>
                   exists text,
                     environ !! variable.1 = Some text
                     /\ PyInt.parse text = None)
           integer_variables)
    /\ (forall e, init environ = Raised e -> e = ValueError).
Proof.
  intros environ.
  assert (forall variable unset,
            PyInt.parse unset <> None ->
            (exists e, getenv_int environ variable unset = Raised e)
            <-> (exists text, environ !! variable = Some text
                              /\ PyInt.parse text = None)) as Hone.
  { intros variable unset Hunset. unfold getenv_int, getenv.
    destruct (environ !! variable) as [text|]; simpl.
    - destruct (PyInt.parse text) eqn:Htext; simpl.
      + split; [by intros [? ?]|]. intros (? & [= <-] & ?). congruence.
      + split; [|by eexists]. intros _. by exists text.
    - destruct (PyInt.parse unset); [|done]. simpl.
      split; [by intros [? ?]|]. by intros (? & ? & ?). }
  unfold init, integer_variables.
  rewrite !Exists_cons, Exists_nil. simpl.
  rewrite <- (Hone "SLOW_MO" "0") by (by vm_compute).
  rewrite <- (Hone "TIMEOUT" "30000") by (by vm_compute).
  rewrite <- (Hone "VIEWPORT_WIDTH" "1920") by (by vm_compute).
  rewrite <- (Hone "VIEWPORT_HEIGHT" "1080") by (by vm_compute).
  rewrite <- (Hone "RETRY_ATTEMPTS" "3") by (by vm_compute).
  rewrite <- (Hone "SCREENSHOT_QUALITY" "80") by (by vm_compute).
  rewrite <- (Hone "DEFAULT_TIMEOUT" "30000") by (by vm_compute).
  rewrite <- (Hone "SHORT_TIMEOUT" "5000") by (by vm_compute).
  rewrite <- (Hone "LONG_TIMEOUT" "60000") by (by vm_compute).
  rewrite <- (Hone "NETWORK_IDLE_TIMEOUT" "1000") by (by vm_compute).
  repeat (match goal with
          | |- context [getenv_int ?e ?v ?d] =>
              let H := fresh "Hint" in
              destruct (getenv_int e v d) eqn:H; simpl;
              [| apply getenv_int_raises in H as ->;
                 split; [split; [intros _; repeat (first [left; by eexists | right])
                               |by eexists]
                        |by intros ? [= <-]] ]
          end).
  split; [|done]. split; [by intros [? ?]|].
  intros H. repeat destruct H as [[? [=]]|H]. done.
Qed.

(** ** The account steps of the end-to-end test *)

Import EndToEnd.

Ltac decide_step :=
  first
    [ match goal with
      | |- context [bool_decide _] =>
          case_bool_decide; try (exfalso; simpl in *; lia);
          cbn -[NewAccountPage.calculations NewAccountPage.last_account_id]
      end
    | answer
    | match goal with
      | |- context [match last_account_id ?links with _ => _ end] =>
          destruct (last_account_id links) as [[|? ?]|?] eqn:?;
          cbn -[NewAccountPage.calculations NewAccountPage.last_account_id]
      | |- context [match NewAccountPage.calculations ?t with _ => _ end] =>
          destruct (NewAccountPage.calculations t) as [[|? [|? ?]]|?] eqn:?;
          cbn -[NewAccountPage.calculations NewAccountPage.last_account_id]
      end ].

(** X10.  In the account steps of the end-to-end test, whatever the
    page answers: Open New Account is clicked exactly once, so the
    recovery steps of [transfer_funds] never run from there; the account
    table is read at most once; and the steps return only after the
    Bill Pay form was opened. *)
Theorem account_steps_requests :
  forall env log,
    exists new,
      snd (account_steps env log) = log ++ new
      /\ count (is_click "text=Open New Account") new = 1
      /\ count is_inner_texts new <= 1
      /\ (fst (account_steps env log) = Returned tt ->
          existsb (is_click "text=Bill Pay") new = true).
Proof.
  intros env log.
  unfold account_steps, assert, create_savings_account, calculations,
    transfer_funds, transfer_funds_with, submit_transfer, pay_bill, fill_phone.
  run_page.
  repeat decide_step; rewrite <- ?app_assoc; cbn;
    (eexists; split; [reflexivity|]; split; [by vm_compute|]; split;
     [vm_compute; lia|]; try done; intros _; by vm_compute).
Qed.
